(** * ToDoList-Manager: a model of [app.py] and its properties

    The Flask application of the repository is embedded here as functions
    on an explicit state: the two tables of the database ([User], [Task])
    and the user id kept in the session.  Each route handler of [app.py]
    is a function from that state to a reply (flashed messages and a
    response) and a new state.

    What the handlers receive from outside is an input of the model: the
    submitted form, the salt drawn by [generate_password_hash], the
    readings of [datetime.now()].  The two password functions of
    [werkzeug.security] and the conversion the database applies to a
    textual key are variables of a section.

    The database is taken to store what it is given and to number new
    rows after the largest key, as SQLite does; [config.py], which names
    the database, is not part of the sources at hand.  A write and its
    [commit] are one step. *)

From Stdlib Require Import List String Ascii ZArith Bool Lia.
Import ListNotations.
Open Scope string_scope.
Open Scope Z_scope.

(** ** [datetime]

    A naive [datetime] value, with the fields Python compares, in the
    order in which it compares them. *)

Record datetime : Type := mk_datetime {
  year : Z; month : Z; day : Z;
  hour : Z; minute : Z; second : Z; microsecond : Z
}.

Definition datetime_fields (d : datetime) : list Z :=
  [year d; month d; day d; hour d; minute d; second d; microsecond d].

(** Lexicographic order on the field tuples: [a < b] on two naive
    datetimes. *)
Fixpoint lex_ltb (a b : list Z) : bool :=
  match a, b with
  | x :: a', y :: b' => (x <? y) || ((x =? y) && lex_ltb a' b')
  | [], _ :: _ => true
  | _, [] => false
  end.

Definition datetime_ltb (a b : datetime) : bool :=
  lex_ltb (datetime_fields a) (datetime_fields b).

(** ** [datetime.strptime(text, '%Y-%m-%d')]

    [strptime] turns the format into the regular expression
    [(?P<Y>\d\d\d\d)-(?P<m>1[0-2]|0[1-9]|[1-9])-(?P<d>3[0-1]|[1-2]\d|0[1-9]|[1-9]| [1-9])],
    matches it at the start of the text, raises [ValueError] when the
    match fails or does not reach the end of the text, and then builds
    the date, which raises [ValueError] when the day does not exist.
    Strings are sequences of 8-bit characters here; among those only
    ['0'..'9'] are decimal digits. *)

Definition in_range (lo hi : ascii) (c : ascii) : bool :=
  (N_of_ascii lo <=? N_of_ascii c)%N && (N_of_ascii c <=? N_of_ascii hi)%N.

Definition is_digit (c : ascii) : bool := in_range "0" "9" c.

Definition digit_val (c : ascii) : Z := Z.of_N (N_of_ascii c) - 48.

(** [(?P<Y>\d\d\d\d)]: the value of the group and the rest of the text. *)
Definition group_Y (s : string) : option (Z * string) :=
  match s with
  | String a (String b (String c (String d rest))) =>
      if is_digit a && is_digit b && is_digit c && is_digit d
      then Some (1000 * digit_val a + 100 * digit_val b
                 + 10 * digit_val c + digit_val d, rest)
      else None
  | _ => None
  end.

(** A literal character of the format. *)
Definition literal (c : ascii) (s : string) : option string :=
  match s with
  | String a rest => if Ascii.eqb a c then Some rest else None
  | EmptyString => None
  end.

(** One alternative made of two character classes, read as a two-digit
    number ([int] of the matched text; a leading blank counts for
    nothing). *)
Definition two_chars (lo1 hi1 lo2 hi2 : ascii) (s : string)
  : list (Z * string) :=
  match s with
  | String a (String b rest) =>
      if in_range lo1 hi1 a && in_range lo2 hi2 b
      then [((if is_digit a then 10 * digit_val a else 0) + digit_val b, rest)]
      else []
  | _ => []
  end.

(** One alternative made of one character class. *)
Definition one_char (lo hi : ascii) (s : string) : list (Z * string) :=
  match s with
  | String a rest => if in_range lo hi a then [(digit_val a, rest)] else []
  | EmptyString => []
  end.

(** [(?P<m>1[0-2]|0[1-9]|[1-9])]: the ways the group can match, in the
    order in which the engine tries them. *)
Definition group_m (s : string) : list (Z * string) :=
  two_chars "1" "1" "0" "2" s ++ two_chars "0" "0" "1" "9" s
  ++ one_char "1" "9" s.

(** [(?P<d>3[0-1]|[1-2]\d|0[1-9]|[1-9]| [1-9])]. *)
Definition group_d (s : string) : list (Z * string) :=
  two_chars "3" "3" "0" "1" s ++ two_chars "1" "2" "0" "9" s
  ++ two_chars "0" "0" "1" "9" s ++ one_char "1" "9" s
  ++ two_chars " " " " "1" "9" s.

(** What follows the month group: the literal and the day group.  The
    pattern ends there, so the first alternative of the day that matches
    is the one the engine keeps. *)
Definition after_m (s : string) : option (Z * string) :=
  match literal "-" s with
  | Some s' => hd_error (group_d s')
  | None => None
  end.

(** The engine backtracks into the month group when what follows fails. *)
Fixpoint first_m (alts : list (Z * string)) : option (Z * Z * string) :=
  match alts with
  | [] => None
  | (m, s) :: alts' =>
      match after_m s with
      | Some (d, rest) => Some (m, d, rest)
      | None => first_m alts'
      end
  end.

(** [format_regex.match(data_string)]: year, month, day and the text
    left after the match. *)
Definition regex_match (s : string) : option (Z * Z * Z * string) :=
  match group_Y s with
  | Some (y, s1) =>
      match literal "-" s1 with
      | Some s2 =>
          match first_m (group_m s2) with
          | Some (m, d, rest) => Some (y, m, d, rest)
          | None => None
          end
      | None => None
      end
  | None => None
  end.

Definition is_leap (y : Z) : bool :=
  (y mod 4 =? 0) && (negb (y mod 100 =? 0) || (y mod 400 =? 0)).

Definition days_in_month (y m : Z) : Z :=
  if (m =? 2) && is_leap y then 29
  else nth (Z.to_nat m) [0; 31; 28; 31; 30; 31; 30; 31; 31; 30; 31; 30; 31] 0.

(** The checks of the [date] constructor. *)
Definition valid_date (y m d : Z) : bool :=
  (1 <=? y) && (y <=? 9999) && (1 <=? m) && (m <=? 12)
  && (1 <=? d) && (d <=? days_in_month y m).

(** [datetime.strptime(s, '%Y-%m-%d')]; [None] stands for [ValueError]. *)
Definition strptime (s : string) : option datetime :=
  match regex_match s with
  | Some (y, m, d, rest) =>
      match rest with
      | EmptyString =>
          if valid_date y m d then Some (mk_datetime y m d 0 0 0 0) else None
      | String _ _ => None
      end
  | None => None
  end.

(** ** The tables

    [User] and [Task] are the two models of [app.py].  [done] has the
    column default [False] and the application never stores anything
    else than a boolean in it; [due_date] is a nullable column. *)

Module User.
Record t : Type := mk {
  id : Z;
  username : string;
  email : string;
  password : string
}.
End User.

Module Task.
Record t : Type := mk {
  id : Z;
  content : string;
  done : bool;
  due_date : option datetime;
  user_id : Z
}.

(** [task.done = v] *)
Definition set_done (v : bool) (x : t) : t :=
  mk (id x) (content x) v (due_date x) (user_id x).

(** [task.content = c] *)
Definition set_content (c : string) (x : t) : t :=
  mk (id x) c (done x) (due_date x) (user_id x).
End Task.

(** The state a request runs in: the rows of the two tables, in the
    order of the table, and the user id kept in the session by
    Flask-Login. *)
Record State : Type := mk_state {
  users : list User.t;
  tasks : list Task.t;
  session_user_id : option Z
}.

(** [db.create_all()] on a fresh database, nobody logged in. *)
Definition initial : State := mk_state [] [] None.

(** The key the database gives to a new row: one more than the largest
    key of the table (1 in an empty table). *)
Definition next_id (ids : list Z) : Z := 1 + fold_right Z.max 0 ids.

(** [User.query.filter_by(username=name).first()] *)
Definition User_first_by_username (us : list User.t) (name : string)
  : option User.t :=
  find (fun u => String.eqb (User.username u) name) us.

(** [User.query.filter_by(email=mail).first()] *)
Definition User_first_by_email (us : list User.t) (mail : string)
  : option User.t :=
  find (fun u => String.eqb (User.email u) mail) us.

(** [User.query.get(k)] *)
Definition User_query_get (us : list User.t) (k : Z) : option User.t :=
  find (fun u => User.id u =? k) us.

(** [Task.query.get(k)] *)
Definition Task_query_get (ts : list Task.t) (k : Z) : option Task.t :=
  find (fun t => Task.id t =? k) ts.

(** [Task.query.filter_by(user_id=u).all()] *)
Definition Task_all_by_user_id (ts : list Task.t) (u : Z) : list Task.t :=
  filter (fun t => Task.user_id t =? u) ts.

(** [db.session.add(User(...)); db.session.commit()] *)
Definition add_user (name mail pw : string) (us : list User.t)
  : list User.t :=
  us ++ [User.mk (next_id (map User.id us)) name mail pw].

(** [db.session.add(Task(content=c, user_id=u, due_date=d));
    db.session.commit()]: [done] takes its default. *)
Definition add_row (c : string) (u : Z) (d : datetime) (ts : list Task.t)
  : list Task.t :=
  ts ++ [Task.mk (next_id (map Task.id ts)) c false (Some d) u].

(** A changed attribute of the object loaded for key [k], written back
    at [db.session.commit()]: the update of the row with that key. *)
Definition update_row (k : Z) (f : Task.t -> Task.t) (ts : list Task.t)
  : list Task.t :=
  map (fun t => if Task.id t =? k then f t else t) ts.

(** [db.session.delete(task); db.session.commit()] for the object with
    key [k]. *)
Definition delete_row (k : Z) (ts : list Task.t) : list Task.t :=
  filter (fun t => negb (Task.id t =? k)) ts.

(** ** Requests and replies *)

Inductive Method : Type := GET | POST.

(** [request.form]: the submitted fields in their order; [form[key]] is
    the first value of the key. *)
Definition Form : Type := list (string * string).

Fixpoint form_get (form : Form) (key : string) : option string :=
  match form with
  | [] => None
  | (k, v) :: form' => if String.eqb k key then Some v else form_get form' key
  end.

(** What a template is rendered with. *)
Inductive Context : Type :=
| no_context
| index_context (tasks : list Task.t)
| analytics_context (total_tasks completed_tasks pending_tasks
                     overdue_tasks : Z).

Inductive Response : Type :=
| redirect (location : string)
| render_template (template : string) (context : Context)
| unauthorized   (* Flask-Login sends the visitor to [login_view] *)
| bad_request.   (* [request.form[key]] on a key that was not sent *)

(** A reply: the messages flashed, as (message, category), and the
    response. *)
Record Reply : Type := mk_reply {
  flashed : list (string * string);
  response : Response
}.

Definition Handler : Type := State -> Reply * State.

Definition flash_and (message category : string) (r : Response) : Reply :=
  mk_reply [(message, category)] r.

Definition abort_400 (s : State) : Reply * State :=
  (mk_reply [] bad_request, s).

Notation "'field' x '<-' e 'or_abort' s ';' body" :=
  (match e with
   | Some x => body
   | None => abort_400 s
   end)
  (at level 10, x name, e at level 9, s at level 9, body at level 200,
   only parsing).

(** [load_user] on the id kept in the session: the acting user, if any. *)
Definition current_user (s : State) : option User.t :=
  match session_user_id s with
  | Some k => User_query_get (users s) k
  | None => None
  end.

(** [@login_required] *)
Definition login_required (view : User.t -> Handler) : Handler :=
  fun s =>
    match current_user s with
    | Some u => view u s
    | None => (mk_reply [] unauthorized, s)
    end.

Definition with_tasks (s : State) (ts : list Task.t) : State :=
  mk_state (users s) ts (session_user_id s).

Definition with_users (s : State) (us : list User.t) : State :=
  mk_state us (tasks s) (session_user_id s).

Definition with_session (s : State) (k : option Z) : State :=
  mk_state (users s) (tasks s) k.

(** ** The route handlers *)

Section App.

(** [werkzeug.security.generate_password_hash(password, method)], with
    the salt it draws made an argument. *)
Variable generate_password_hash : string -> string -> string -> string.

(** [werkzeug.security.check_password_hash(pwhash, password)] *)
Variable check_password_hash : string -> string -> bool.

(** The key the database reads in a text given where it expects the
    integer key, as [/toggle] and [/edit] give it the form field. *)
Variable pk_of_text : string -> option Z.

(** [Task.query.get(task_id)] on a form field. *)
Definition Task_query_get_text (ts : list Task.t) (task_id : string)
  : option Task.t :=
  match pk_of_text task_id with
  | Some k => Task_query_get ts k
  | None => None
  end.

(** [/] *)
Definition home : Handler :=
  fun s =>
    match current_user s with
    | Some _ => (mk_reply [] (redirect "/index"), s)
    | None => (mk_reply [] (redirect "/register"), s)
    end.

(** [/register] *)
Definition register (method : Method) (form : Form) (salt : string)
  : Handler :=
  fun s =>
    match method with
    | POST =>
        field username <- (form_get form "username") or_abort s ;
        field email <- (form_get form "email") or_abort s ;
        field password <- (form_get form "password") or_abort s ;
        match User_first_by_username (users s) username with
        | Some _ =>
            (flash_and "Username already exists. Please choose another one."
                       "danger" (redirect "/register"), s)
        | None =>
            match User_first_by_email (users s) email with
            | Some _ =>
                (flash_and "Email already registered. Please log in."
                           "danger" (redirect "/login"), s)
            | None =>
                let hashed_password :=
                  generate_password_hash password "pbkdf2:sha256" salt in
                (flash_and "Registration successful! Please log in."
                           "success" (redirect "/login"),
                 with_users s
                   (add_user username email hashed_password (users s)))
            end
        end
    | GET => (mk_reply [] (render_template "register.html" no_context), s)
    end.

(** [/login] *)
Definition login (method : Method) (form : Form) : Handler :=
  fun s =>
    match method with
    | POST =>
        field username <- (form_get form "username") or_abort s ;
        field password <- (form_get form "password") or_abort s ;
        match User_first_by_username (users s) username with
        | Some user =>
            if check_password_hash (User.password user) password
            then (flash_and "Login successful!" "success"
                            (redirect "/index"),
                  with_session s (Some (User.id user)))
            else (flash_and "Login failed. Incorrect password." "danger"
                            (render_template "login.html" no_context), s)
        | None =>
            (flash_and "Username does not exist. Please register." "danger"
                       (redirect "/register"), s)
        end
    | GET => (mk_reply [] (render_template "login.html" no_context), s)
    end.

(** [/logout] *)
Definition logout : Handler :=
  login_required (fun _ s =>
    (flash_and "You have logged out." "success" (redirect "/login"),
     with_session s None)).

(** [/index] *)
Definition tasks_list : Handler :=
  login_required (fun current_user s =>
    let found := Task_all_by_user_id (tasks s) (User.id current_user) in
    (mk_reply [] (render_template "index.html" (index_context found)), s)).

(** [/task] *)
Definition add_task (form : Form) : Handler :=
  login_required (fun current_user s =>
    field content <- (form_get form "content") or_abort s ;
    field due_date <- (form_get form "due_date") or_abort s ;
    if String.eqb content ""
    then (flash_and "Please enter text for your task" "danger"
                    (redirect "/index"), s)
    else
      match strptime due_date with
      | None =>
          (flash_and "Invalid date format. Please use YYYY-MM-DD." "danger"
                     (redirect "/index"), s)
      | Some due_date_obj =>
          (flash_and "Task added successfully!" "success"
                     (redirect "/index"),
           with_tasks s
             (add_row content (User.id current_user) due_date_obj
                      (tasks s)))
      end).

Definition not_found_or_unauthorized (s : State) : Reply * State :=
  (flash_and "Task not found or unauthorized action." "danger"
             (redirect "/index"), s).

(** [/toggle] *)
Definition toggle_status (form : Form) : Handler :=
  login_required (fun current_user s =>
    field task_id <- (form_get form "task_id") or_abort s ;
    match Task_query_get_text (tasks s) task_id with
    | Some task =>
        if Task.user_id task =? User.id current_user
        then (flash_and "Task status updated." "success"
                        (redirect "/index"),
              with_tasks s
                (update_row (Task.id task)
                            (Task.set_done (negb (Task.done task)))
                            (tasks s)))
        else not_found_or_unauthorized s
    | None => not_found_or_unauthorized s
    end).

(** [/edit] *)
Definition edit_task (form : Form) : Handler :=
  login_required (fun current_user s =>
    field task_id <- (form_get form "task_id") or_abort s ;
    field edit_text <- (form_get form "edit_text") or_abort s ;
    if String.eqb edit_text ""
    then (flash_and "Please enter text for your task" "danger"
                    (redirect "/index"), s)
    else
      match Task_query_get_text (tasks s) task_id with
      | Some task =>
          if Task.user_id task =? User.id current_user
          then (flash_and "Task updated successfully." "success"
                          (redirect "/index"),
                with_tasks s
                  (update_row (Task.id task) (Task.set_content edit_text)
                              (tasks s)))
          else not_found_or_unauthorized s
      | None => not_found_or_unauthorized s
      end).

(** [/delete/<int:task_id>] *)
Definition delete_task (task_id : Z) : Handler :=
  login_required (fun current_user s =>
    match Task_query_get (tasks s) task_id with
    | Some task =>
        if Task.user_id task =? User.id current_user
        then (flash_and "Task deleted successfully." "success"
                        (redirect "/index"),
              with_tasks s (delete_row (Task.id task) (tasks s)))
        else not_found_or_unauthorized s
    | None => not_found_or_unauthorized s
    end).

(** The loop of [/finished]: [if not task.done: task.done = True] on
    each object the query returned, written back to its row. *)
Definition resolve_loop (found table : list Task.t) : list Task.t :=
  fold_left
    (fun table task =>
       if negb (Task.done task)
       then update_row (Task.id task) (Task.set_done true) table
       else table)
    found table.

(** [/finished] *)
Definition resolve_tasks : Handler :=
  login_required (fun current_user s =>
    let found := Task_all_by_user_id (tasks s) (User.id current_user) in
    (flash_and "All tasks marked as completed." "success"
               (redirect "/index"),
     with_tasks s (resolve_loop found (tasks s)))).

(** [sum(task.done for task in tasks)] *)
Definition sum_done (ts : list Task.t) : Z :=
  fold_right (fun task acc => (if Task.done task then 1 else 0) + acc) 0 ts.

(** [sum(task.due_date < datetime.now() and not task.done
         for task in tasks if task.due_date)]: the generator reads the
    clock once for each task that has a due date; [clock k] is the
    reading number [k] of the request. *)
Fixpoint sum_overdue (clock : nat -> datetime) (k : nat) (ts : list Task.t)
  : Z :=
  match ts with
  | [] => 0
  | task :: ts' =>
      match Task.due_date task with
      | Some due =>
          (if datetime_ltb due (clock k) && negb (Task.done task)
           then 1 else 0)
          + sum_overdue clock (S k) ts'
      | None => sum_overdue clock k ts'
      end
  end.

(** [/analytics] *)
Definition analytics (clock : nat -> datetime) : Handler :=
  login_required (fun current_user s =>
    let found := Task_all_by_user_id (tasks s) (User.id current_user) in
    let total_tasks := Z.of_nat (List.length found) in
    let completed_tasks := sum_done found in
    let pending_tasks := total_tasks - completed_tasks in
    let overdue_tasks := sum_overdue clock 0 found in
    (mk_reply []
       (render_template "analytics.html"
          (analytics_context total_tasks completed_tasks pending_tasks
                             overdue_tasks)), s)).

(** ** The application as a whole *)

Inductive Request : Type :=
| request_home
| request_register (method : Method) (form : Form) (salt : string)
| request_login (method : Method) (form : Form)
| request_logout
| request_index
| request_task (form : Form)
| request_toggle (form : Form)
| request_edit (form : Form)
| request_delete (task_id : Z)
| request_finished
| request_analytics (clock : nat -> datetime).

Definition dispatch (r : Request) : Handler :=
  match r with
  | request_home => home
  | request_register method form salt => register method form salt
  | request_login method form => login method form
  | request_logout => logout
  | request_index => tasks_list
  | request_task form => add_task form
  | request_toggle form => toggle_status form
  | request_edit form => edit_task form
  | request_delete task_id => delete_task task_id
  | request_finished => resolve_tasks
  | request_analytics clock => analytics clock
  end.

(** The states the application can be in: those a sequence of requests
    leads to from the empty database. *)
Inductive reachable : State -> Prop :=
| reachable_initial : reachable initial
| reachable_step (s : State) (r : Request) :
    reachable s -> reachable (snd (dispatch r s)).

End App.

(** Keys identify rows. *)
Definition primary_keys (s : State) : Prop :=
  NoDup (map Task.id (tasks s)) /\ NoDup (map User.id (users s)).

(** A row with a due date. *)
Definition has_due_date (t : Task.t) : Prop := Task.due_date t <> None.

(** ** Counting rows

    The number of rows of a table that satisfy a test, and the tests the
    summary of [/analytics] is about. *)

Definition count (p : Task.t -> bool) (ts : list Task.t) : Z :=
  Z.of_nat (List.length (filter p ts)).

Definition owned_by (u : Z) (t : Task.t) : bool := Task.user_id t =? u.

(** Past due at the instant [now]: a due date strictly before [now] and
    not done. *)
Definition overdue_at (now : datetime) (t : Task.t) : bool :=
  match Task.due_date t with
  | Some due => datetime_ltb due now && negb (Task.done t)
  | None => false
  end.

(** ** What a request can do to the tables

    The changes the handlers make to the task table, one constructor for
    each kind of write in [app.py]. *)

Inductive table_step (ts : list Task.t) : list Task.t -> Prop :=
| step_nothing : table_step ts ts
| step_add (c : string) (u : Z) (d : datetime) :
    table_step ts (add_row c u d ts)
| step_done (k : Z) (v : bool) :
    table_step ts (update_row k (Task.set_done v) ts)
| step_content (k : Z) (c : string) :
    table_step ts (update_row k (Task.set_content c) ts)
| step_delete (k : Z) : table_step ts (delete_row k ts)
| step_resolve (found : list Task.t) :
    table_step ts (resolve_loop found ts).

Inductive users_step (us : list User.t) : list User.t -> Prop :=
| users_nothing : users_step us us
| users_add (name mail pw : string) :
    users_step us (add_user name mail pw us).

(** ** Sample data

    A stand-in for the password functions, to run the model on sample
    requests: the salt, a dollar sign, the password.  It says nothing
    about the real functions. *)

Definition sample_hash (password method salt : string) : string :=
  salt ++ "$" ++ password.

Fixpoint after_dollar (s : string) : string :=
  match s with
  | EmptyString => EmptyString
  | String c rest => if Ascii.eqb c "$" then rest else after_dollar rest
  end.

Definition sample_check (pwhash password : string) : bool :=
  String.eqb (after_dollar pwhash) password.

(** A database that reads a text of one decimal digit as that key. *)
Definition sample_pk_of_text (text : string) : option Z :=
  match text with
  | String c EmptyString => if is_digit c then Some (digit_val c) else None
  | _ => None
  end.

Definition alice : User.t := User.mk 1 "alice" "a@x.com" "hash-a".
Definition bob : User.t := User.mk 2 "bob" "b@x.com" "hash-b".

Definition milk : Task.t :=
  Task.mk 1 "Buy milk" false (Some (mk_datetime 2099 1 1 0 0 0 0)) 1.
Definition taxes : Task.t :=
  Task.mk 2 "File taxes" true (Some (mk_datetime 2024 4 15 0 0 0 0)) 1.
Definition letter : Task.t :=
  Task.mk 3 "Post letter" false (Some (mk_datetime 2024 5 1 0 0 0 0)) 2.

(** Two users, three tasks; [who] is the user id in the session. *)
Definition sample (who : option Z) : State :=
  mk_state [alice; bob] [milk; taxes; letter] who.

(** One user with one open task that was due the day before the instant
    [june_1st]. *)
Definition june_1st : datetime := mk_datetime 2024 6 1 10 30 0 0.

Definition due_yesterday : State :=
  mk_state [alice]
           [Task.mk 1 "Water plants" false
                    (Some (mk_datetime 2024 5 31 0 0 0 0)) 1]
           (Some 1).

(** The application with the stand-ins, and a sequence of requests. *)
Definition sample_dispatch : Request -> Handler :=
  dispatch sample_hash sample_check sample_pk_of_text.

Fixpoint run (serve : Request -> Handler) (rs : list Request) (s : State)
  : State :=
  match rs with
  | [] => s
  | r :: rs' => run serve rs' (snd (serve r s))
  end.

(** Register, log in, add a task. *)
Definition journey : list Request :=
  [ request_register POST
      [("username", "alice"); ("email", "a@x.com"); ("password", "pw")]
      "salt";
    request_login POST [("username", "alice"); ("password", "pw")];
    request_task [("content", "Buy milk"); ("due_date", "2099-01-01")] ].

(** ** Dates written YYYY-MM-DD

    The text of a date with a year of four digits, a month and a day of
    two digits each, as an HTML date field submits it. *)

Definition digit_char (n : Z) : ascii := ascii_of_N (Z.to_N (48 + n)).

Definition two_digits (n : Z) : string :=
  String (digit_char (n / 10)) (String (digit_char (n mod 10)) EmptyString).

Definition four_digits (n : Z) : string :=
  String (digit_char (n / 1000))
    (String (digit_char ((n / 100) mod 10)) (two_digits (n mod 100))).

Definition isoformat (y m d : Z) : string :=
  four_digits y ++ "-" ++ two_digits m ++ "-" ++ two_digits d.

(** What the month and day groups make of two two-digit fields: the
    fields themselves when the month is 1..12 and the day 1..31, and no
    match up to the end of the text otherwise. *)
Definition month_day_agree (m d : Z) : bool :=
  match first_m (group_m (two_digits m ++ "-" ++ two_digits d)) with
  | Some (m', d', EmptyString) =>
      (m' =? m) && (d' =? d)
      && (1 <=? m) && (m <=? 12) && (1 <=? d) && (d <=? 31)
  | _ => negb ((1 <=? m) && (m <=? 12) && (1 <=? d) && (d <=? 31))
  end.

Definition upto (n : nat) : list Z := map Z.of_nat (seq 0 n).


(** ** What a request does to the state

    One constructor for each write of [app.py], with what the handler
    has checked before it writes. *)

Inductive effect (s : State) : State -> Prop :=
| effect_none : effect s s
| effect_register (name mail pw : string) :
    (forall u, In u (users s) -> User.username u <> name) ->
    (forall u, In u (users s) -> User.email u <> mail) ->
    effect s (with_users s (add_user name mail pw (users s)))
| effect_login (user : User.t) :
    In user (users s) ->
    effect s (with_session s (Some (User.id user)))
| effect_logout :
    effect s (with_session s None)
| effect_add (u : User.t) (c text : string) (d : datetime) :
    current_user s = Some u -> c <> "" -> strptime text = Some d ->
    effect s (with_tasks s (add_row c (User.id u) d (tasks s)))
| effect_toggle (u : User.t) (task : Task.t) :
    current_user s = Some u -> In task (tasks s) ->
    Task.user_id task = User.id u ->
    effect s (with_tasks s
                (update_row (Task.id task)
                            (Task.set_done (negb (Task.done task)))
                            (tasks s)))
| effect_edit (u : User.t) (task : Task.t) (c : string) :
    current_user s = Some u -> In task (tasks s) ->
    Task.user_id task = User.id u -> c <> "" ->
    effect s (with_tasks s
                (update_row (Task.id task) (Task.set_content c) (tasks s)))
| effect_delete (u : User.t) (task : Task.t) :
    current_user s = Some u -> In task (tasks s) ->
    Task.user_id task = User.id u ->
    effect s (with_tasks s (delete_row (Task.id task) (tasks s)))
| effect_resolve (u : User.t) :
    current_user s = Some u ->
    effect s (with_tasks s
                (resolve_loop (Task_all_by_user_id (tasks s) (User.id u))
                              (tasks s))).

(** ** Conditions on a state *)

(** No two users share a username, nor an email. *)
Definition unique_names (s : State) : Prop :=
  NoDup (map User.username (users s)) /\ NoDup (map User.email (users s)).

(** The id kept in the session is the id of a user. *)
Definition session_valid (s : State) : Prop :=
  forall k, session_user_id s = Some k ->
            exists u, In u (users s) /\ User.id u = k.

(** The owner of each task is a user. *)
Definition owners_exist (s : State) : Prop :=
  forall t, In t (tasks s) ->
            exists u, In u (users s) /\ User.id u = Task.user_id t.

(** A due date that is a day of the calendar, at midnight. *)
Definition calendar_midnight (d : datetime) : Prop :=
  valid_date (year d) (month d) (day d) = true
  /\ hour d = 0 /\ minute d = 0 /\ second d = 0 /\ microsecond d = 0.

(** [a <= b] on two datetimes. *)
Definition datetime_leb (a b : datetime) : bool := negb (datetime_ltb b a).


(** ** Kinds of requests *)

(** The routes under [@login_required]. *)
Definition protected (r : Request) : bool :=
  match r with
  | request_home | request_register _ _ _ | request_login _ _ => false
  | _ => true
  end.

(** The requests whose handler holds a write to the user table, to the
    task table, to the session. *)
Definition writes_users (r : Request) : bool :=
  match r with
  | request_register POST _ _ => true
  | _ => false
  end.

Definition writes_tasks (r : Request) : bool :=
  match r with
  | request_task _ | request_toggle _ | request_edit _
  | request_delete _ | request_finished => true
  | _ => false
  end.

Definition writes_session (r : Request) : bool :=
  match r with
  | request_login POST _ | request_logout => true
  | _ => false
  end.


(** The state after the registration of [journey]: one user, whose
    stored password is what [sample_hash] made of "pw". *)
Definition registered : State :=
  mk_state [User.mk 1 "alice" "a@x.com" "salt$pw"] [] None.

(** The readings of a clock that stands at [june_1st]. *)
Definition clock_june_1st : nat -> datetime := fun _ => june_1st.


(** * Properties *)

(** ** [strptime] on sample texts *)

Example strptime_plain :
  strptime "2099-01-01" = Some (mk_datetime 2099 1 1 0 0 0 0).
Proof. reflexivity. Qed.

Example strptime_leap_day :
  strptime "2024-02-29" = Some (mk_datetime 2024 2 29 0 0 0 0).
Proof. reflexivity. Qed.

Example strptime_short_fields :
  strptime "2024-1-5" = Some (mk_datetime 2024 1 5 0 0 0 0).
Proof. reflexivity. Qed.

Example strptime_no_such_day : strptime "2024-02-30" = None.
Proof. reflexivity. Qed.

Example strptime_not_leap : strptime "2023-02-29" = None.
Proof. reflexivity. Qed.

Example strptime_empty : strptime "" = None.
Proof. reflexivity. Qed.

Example strptime_trailing : strptime "2024-01-311" = None.
Proof. reflexivity. Qed.

Example strptime_year_zero : strptime "0000-01-01" = None.
Proof. reflexivity. Qed.

Example strptime_blank_day :
  strptime "2024-01- 5" = Some (mk_datetime 2024 1 5 0 0 0 0).
Proof. reflexivity. Qed.

(** ** [strptime] on dates written YYYY-MM-DD *)

Lemma upto_in (n : nat) (x : Z) : 0 <= x < Z.of_nat n -> In x (upto n).
Proof.
  intros Hx. unfold upto. apply in_map_iff. exists (Z.to_nat x).
  split; [lia|]. apply in_seq. lia.
Qed.

Lemma digit_char_digit (n : Z) :
  0 <= n <= 9 -> is_digit (digit_char n) = true /\ digit_val (digit_char n) = n.
Proof.
  intros Hn.
  assert (H : In n (upto 10)) by (apply upto_in; lia).
  cbn in H.
  repeat (destruct H as [<-|H]; [split; reflexivity|]).
  contradiction.
Qed.

Lemma group_Y_four_digits (y : Z) (rest : string) :
  0 <= y <= 9999 -> group_Y (four_digits y ++ rest) = Some (y, rest).
Proof.
  intros Hy. unfold four_digits, two_digits. cbn [append]. unfold group_Y.
  destruct (digit_char_digit (y / 1000)) as [D1 V1];
    [Z.div_mod_to_equations; lia|].
  destruct (digit_char_digit ((y / 100) mod 10)) as [D2 V2];
    [Z.div_mod_to_equations; lia|].
  destruct (digit_char_digit (y mod 100 / 10)) as [D3 V3];
    [Z.div_mod_to_equations; lia|].
  destruct (digit_char_digit ((y mod 100) mod 10)) as [D4 V4];
    [Z.div_mod_to_equations; lia|].
  rewrite D1, D2, D3, D4, V1, V2, V3, V4. cbn [andb].
  f_equal. f_equal. Z.div_mod_to_equations. lia.
Qed.

Lemma month_day_agree_all :
  forallb (fun m => forallb (month_day_agree m) (upto 100)) (upto 100) = true.
Proof. vm_compute. reflexivity. Qed.

Lemma month_day_agree_true (m d : Z) :
  0 <= m <= 99 -> 0 <= d <= 99 -> month_day_agree m d = true.
Proof.
  intros Hm Hd. pose proof month_day_agree_all as H.
  rewrite forallb_forall in H.
  assert (Hin : In m (upto 100)) by (apply upto_in; lia).
  specialize (H m Hin). rewrite forallb_forall in H.
  apply H. apply upto_in. lia.
Qed.

Lemma days_in_month_max (y m : Z) : days_in_month y m <= 31.
Proof.
  unfold days_in_month.
  destruct ((m =? 2) && is_leap y); [lia|].
  destruct (Z.to_nat m) as [|[|[|[|[|[|[|[|[|[|[|[|[|n]]]]]]]]]]]]];
    cbn; try lia.
  destruct n; cbn; lia.
Qed.

Lemma valid_date_out_of_range (y m d : Z) :
  (1 <=? m) && (m <=? 12) && (1 <=? d) && (d <=? 31) = false ->
  valid_date y m d = false.
Proof.
  intros Hout. apply not_true_is_false. intros Hv. unfold valid_date in Hv.
  repeat (apply andb_true_iff in Hv; destruct Hv as [Hv ?]).
  pose proof (days_in_month_max y m).
  assert (Hin : (1 <=? m) && (m <=? 12) && (1 <=? d) && (d <=? 31) = true).
  { repeat (apply andb_true_iff; split); try assumption.
    apply Z.leb_le. match goal with
                    | Hd : (d <=? days_in_month y m) = true |- _ =>
                        apply Z.leb_le in Hd; lia
                    end. }
  congruence.
Qed.

(** On a date written with four, two and two digits, [strptime] gives the
    date when the calendar has it and raises [ValueError] when it has
    not. *)
Theorem strptime_isoformat (y m d : Z) :
  0 <= y <= 9999 -> 0 <= m <= 99 -> 0 <= d <= 99 ->
  strptime (isoformat y m d)
  = if valid_date y m d then Some (mk_datetime y m d 0 0 0 0) else None.
Proof.
  intros Hy Hm Hd. unfold strptime, regex_match, isoformat.
  rewrite group_Y_four_digits by assumption.
  cbn [append literal]. rewrite Ascii.eqb_refl.
  pose proof (month_day_agree_true m d Hm Hd) as Hagree.
  unfold month_day_agree in Hagree. cbn [append] in Hagree.
  destruct (first_m _) as [[[m' d'] rest]|].
  - destruct rest as [|c rest].
    + repeat (apply andb_true_iff in Hagree; destruct Hagree as [Hagree ?]).
      apply Z.eqb_eq in Hagree. subst m'.
      match goal with H : (d' =? d) = true |- _ => apply Z.eqb_eq in H; subst d' end.
      reflexivity.
    + apply negb_true_iff in Hagree.
      now rewrite (valid_date_out_of_range y m d Hagree).
  - apply negb_true_iff in Hagree.
    now rewrite (valid_date_out_of_range y m d Hagree).
Qed.

(** ** Keys and rows *)

Lemma Task_query_get_in (ts : list Task.t) (k : Z) (t : Task.t) :
  Task_query_get ts k = Some t -> In t ts /\ Task.id t = k.
Proof.
  unfold Task_query_get. intros H.
  apply find_some in H. destruct H as [Hin Hk].
  split; [assumption | now apply Z.eqb_eq].
Qed.

Lemma Task_query_get_none (ts : list Task.t) (k : Z) :
  Task_query_get ts k = None -> forall t, In t ts -> Task.id t <> k.
Proof.
  unfold Task_query_get. intros H t Hin Hk.
  pose proof (find_none _ _ H t Hin) as Hf. cbv beta in Hf.
  apply Z.eqb_neq in Hf. contradiction.
Qed.

(** With keys that identify rows, looking a row up by its key finds it. *)
Lemma Task_query_get_key (ts : list Task.t) (t : Task.t) :
  NoDup (map Task.id ts) -> In t ts -> Task_query_get ts (Task.id t) = Some t.
Proof.
  unfold Task_query_get.
  induction ts as [|x ts IH]; simpl; intros Hnd Hin; [contradiction|].
  inversion Hnd as [|? ? Hx Hnd']; subst.
  destruct Hin as [->|Hin].
  - now rewrite Z.eqb_refl.
  - destruct (Task.id x =? Task.id t) eqn:E.
    + apply Z.eqb_eq in E. exfalso. apply Hx. rewrite E.
      now apply in_map.
    + now apply IH.
Qed.

Lemma delete_row_in (k : Z) (ts : list Task.t) (t : Task.t) :
  In t (delete_row k ts) <-> In t ts /\ Task.id t <> k.
Proof.
  unfold delete_row. rewrite filter_In, negb_true_iff, Z.eqb_neq. tauto.
Qed.

Lemma delete_row_get (k : Z) (ts : list Task.t) :
  Task_query_get (delete_row k ts) k = None.
Proof.
  destruct (Task_query_get (delete_row k ts) k) as [t|] eqn:E; [|reflexivity].
  apply Task_query_get_in in E. destruct E as [Hin Hk].
  apply delete_row_in in Hin. tauto.
Qed.

Lemma login_required_some (view : User.t -> Handler) (s : State) (u : User.t) :
  current_user s = Some u -> login_required view s = view u s.
Proof. unfold login_required. now intros ->. Qed.

Lemma login_required_none (view : User.t -> Handler) (s : State) :
  current_user s = None -> login_required view s = (mk_reply [] unauthorized, s).
Proof. unfold login_required. now intros ->. Qed.

(** ** Listing *)

(** C1.  For a logged-in user [u], [/index] renders [index.html] with a
    list that holds exactly the rows of the task table whose [user_id] is
    the id of [u], in the order of the table: a task is listed if and
    only if it is in the table and [u] owns it, so no task of another
    user is ever listed.  The state is left as it was. *)
Theorem tasks_list_exactly_own (s : State) (u : User.t) :
  current_user s = Some u ->
  exists found,
    tasks_list s
    = (mk_reply [] (render_template "index.html" (index_context found)), s)
    /\ found = filter (owned_by (User.id u)) (tasks s)
    /\ (forall t, In t found
                  <-> In t (tasks s) /\ Task.user_id t = User.id u)
    /\ (forall t, Task.user_id t <> User.id u -> ~ In t found).
Proof.
  intros Hu. unfold tasks_list. rewrite (login_required_some _ _ _ Hu).
  eexists. split; [reflexivity|]. split; [reflexivity|].
  assert (Hiff : forall t,
             In t (Task_all_by_user_id (tasks s) (User.id u))
             <-> In t (tasks s) /\ Task.user_id t = User.id u).
  { intros t. unfold Task_all_by_user_id.
    now rewrite filter_In, Z.eqb_eq. }
  split; [exact Hiff|].
  intros t Hne Hin. apply Hiff in Hin. tauto.
Qed.

(** ** Deleting *)

(** C2.  In a state whose keys identify rows, let [t] be a task of the
    table and [b] the logged-in user.  If [b] does not own [t],
    [/delete/<id of t>] flashes "Task not found or unauthorized action."
    and leaves the whole state as it was, so [t] is still in the table,
    unchanged.  If [b] owns [t], the request flashes the success message
    and the table afterwards holds exactly the other rows: no row has
    the key of [t] any more, [t] is gone, every other row is there as
    before, and the user table and the session are untouched. *)
Theorem delete_task_ownership (s : State) (b : User.t) (t : Task.t) :
  primary_keys s ->
  current_user s = Some b ->
  In t (tasks s) ->
  (Task.user_id t <> User.id b ->
     delete_task (Task.id t) s
     = (flash_and "Task not found or unauthorized action." "danger"
                  (redirect "/index"), s)
     /\ In t (tasks (snd (delete_task (Task.id t) s))))
  /\ (Task.user_id t = User.id b ->
        let s' := snd (delete_task (Task.id t) s) in
        fst (delete_task (Task.id t) s)
        = flash_and "Task deleted successfully." "success" (redirect "/index")
        /\ Task_query_get (tasks s') (Task.id t) = None
        /\ ~ In t (tasks s')
        /\ (forall t', In t' (tasks s') <-> In t' (tasks s) /\ Task.id t' <> Task.id t)
        /\ users s' = users s
        /\ session_user_id s' = session_user_id s).
Proof.
  intros [Hkeys _] Hb Hin.
  unfold delete_task. rewrite (login_required_some _ _ _ Hb).
  rewrite (Task_query_get_key _ _ Hkeys Hin).
  split.
  - intros Hne. apply Z.eqb_neq in Hne. rewrite Hne.
    split; [reflexivity | exact Hin].
  - intros Heq. apply Z.eqb_eq in Heq. rewrite Heq. cbn.
    split; [reflexivity|].
    split; [apply delete_row_get|].
    split; [rewrite delete_row_in; tauto|].
    split; [intros t'; apply delete_row_in|].
    split; reflexivity.
Qed.

(** ** The summary *)

Lemma filter_filter (p q : Task.t -> bool) (ts : list Task.t) :
  filter p (filter q ts) = filter (fun t => q t && p t) ts.
Proof.
  induction ts as [|x ts IH]; simpl; [reflexivity|].
  destruct (q x); simpl; [destruct (p x)|]; now rewrite IH.
Qed.

Lemma count_filter (p q : Task.t -> bool) (ts : list Task.t) :
  count p (filter q ts) = count (fun t => q t && p t) ts.
Proof. unfold count. now rewrite filter_filter. Qed.

Lemma sum_done_count (ts : list Task.t) : sum_done ts = count Task.done ts.
Proof.
  unfold count. induction ts as [|x ts IH]; simpl; [reflexivity|].
  rewrite IH. destruct (Task.done x); simpl List.length; lia.
Qed.

Lemma sum_overdue_one_instant (clock : nat -> datetime) (now : datetime)
      (ts : list Task.t) :
  (forall k, clock k = now) ->
  forall k, sum_overdue clock k ts = count (overdue_at now) ts.
Proof.
  intros Hclock. unfold count, overdue_at.
  induction ts as [|x ts IH]; intros k; simpl; [reflexivity|].
  destruct (Task.due_date x) as [due|].
  - rewrite IH, Hclock.
    destruct (datetime_ltb due now && negb (Task.done x));
      simpl List.length; lia.
  - apply IH.
Qed.

Lemma count_split (p q : Task.t -> bool) (ts : list Task.t) :
  count p ts
  = count (fun t => p t && q t) ts + count (fun t => p t && negb (q t)) ts.
Proof.
  unfold count. induction ts as [|x ts IH]; simpl; [reflexivity|].
  destruct (p x), (q x); simpl List.length; lia.
Qed.

(** C3.  For a logged-in user [u], any task table, and a request during
    which the clock reads the one instant [now], [/analytics] renders
    [analytics.html] with: [total_tasks] the number of rows owned by [u];
    [completed_tasks] the number of those that are done; [pending_tasks]
    their difference, which is the number of those not done;
    [overdue_tasks] the number of those with a due date strictly before
    [now] and not done.  A row without a due date is never past due.
    The request leaves the state as it was. *)
Theorem analytics_counts (s : State) (u : User.t) (clock : nat -> datetime)
        (now : datetime) :
  current_user s = Some u ->
  (forall k, clock k = now) ->
  let own := owned_by (User.id u) in
  let total := count own (tasks s) in
  let completed := count (fun t => own t && Task.done t) (tasks s) in
  let overdue := count (fun t => own t && overdue_at now t) (tasks s) in
  analytics clock s
  = (mk_reply []
       (render_template "analytics.html"
          (analytics_context total completed (total - completed) overdue)),
     s)
  /\ total - completed = count (fun t => own t && negb (Task.done t)) (tasks s)
  /\ (forall t, Task.due_date t = None -> overdue_at now t = false).
Proof.
  intros Hu Hclock own total completed overdue.
  unfold analytics. rewrite (login_required_some _ _ _ Hu). cbv zeta.
  rewrite sum_done_count, (sum_overdue_one_instant _ _ _ Hclock).
  unfold Task_all_by_user_id. fold (owned_by (User.id u)). fold own.
  rewrite !count_filter. fold (count own (tasks s)).
  split; [reflexivity|]. split.
  - unfold total, completed.
    rewrite (count_split own Task.done (tasks s)). lia.
  - intros t Ht. unfold overdue_at. now rewrite Ht.
Qed.

(** ** Adding *)

Lemma fold_max_upper (ids : list Z) (x : Z) :
  In x ids -> x <= fold_right Z.max 0 ids.
Proof.
  induction ids as [|y ids IH]; simpl; [contradiction|].
  intros [->|Hin]; [lia|]. specialize (IH Hin). lia.
Qed.

Lemma next_id_fresh (ids : list Z) : ~ In (next_id ids) ids.
Proof.
  unfold next_id. intros Hin. apply fold_max_upper in Hin. lia.
Qed.

Lemma String_eqb_empty (c : string) : c <> "" -> String.eqb c "" = false.
Proof. intros Hc. now apply String.eqb_neq. Qed.

(** C4, as the code has it.  For a logged-in user [u], a content that is
    not empty and any due-date text: when [strptime] rejects the text
    (as it rejects "2024-02-30"), [/task] flashes "Invalid date format.
    Please use YYYY-MM-DD." and leaves the state as it was; when
    [strptime] reads the date [d], [/task] flashes the success message
    and appends one row to the task table, with a key no row had, the
    content, [done] false, the due date [d] and owner [u], the other
    tables untouched. *)
Theorem add_task_date_check (s : State) (u : User.t) (form : Form)
        (content due_date : string) :
  current_user s = Some u ->
  form_get form "content" = Some content ->
  form_get form "due_date" = Some due_date ->
  content <> "" ->
  (strptime due_date = None ->
     add_task form s
     = (flash_and "Invalid date format. Please use YYYY-MM-DD." "danger"
                  (redirect "/index"), s))
  /\ (forall d, strptime due_date = Some d ->
        exists k,
          ~ In k (map Task.id (tasks s))
          /\ add_task form s
             = (flash_and "Task added successfully!" "success"
                          (redirect "/index"),
                mk_state (users s)
                         (tasks s
                          ++ [Task.mk k content false (Some d) (User.id u)])
                         (session_user_id s)))
  /\ strptime "2024-02-30" = None.
Proof.
  intros Hu Hc Hd Hne.
  unfold add_task. rewrite (login_required_some _ _ _ Hu), Hc, Hd.
  rewrite (String_eqb_empty _ Hne).
  split; [|split].
  - now intros ->.
  - intros d ->. exists (next_id (map Task.id (tasks s))).
    split; [apply next_id_fresh | reflexivity].
  - reflexivity.
Qed.

(** C5.  For a logged-in user and any due-date text, [/task] with an
    empty content flashes "Please enter text for your task" and leaves
    the state as it was: no row is added. *)
Theorem add_task_empty_content (s : State) (u : User.t) (form : Form)
        (due_date : string) :
  current_user s = Some u ->
  form_get form "content" = Some "" ->
  form_get form "due_date" = Some due_date ->
  add_task form s
  = (flash_and "Please enter text for your task" "danger"
               (redirect "/index"), s)
  /\ tasks (snd (add_task form s)) = tasks s.
Proof.
  intros Hu Hc Hd.
  unfold add_task. rewrite (login_required_some _ _ _ Hu), Hc, Hd.
  split; reflexivity.
Qed.

(** ** Rows changed in place *)

Lemma NoDup_map_id_inj (ts : list Task.t) (x y : Task.t) :
  NoDup (map Task.id ts) -> In x ts -> In y ts -> Task.id x = Task.id y ->
  x = y.
Proof.
  induction ts as [|z ts IH]; simpl; intros Hnd Hx Hy Hxy; [contradiction|].
  inversion Hnd as [|? ? Hz Hnd']; subst.
  destruct Hx as [->|Hx], Hy as [->|Hy].
  - reflexivity.
  - exfalso. apply Hz. rewrite Hxy. now apply in_map.
  - exfalso. apply Hz. rewrite <- Hxy. now apply in_map.
  - now apply IH.
Qed.

Lemma update_row_ids (k : Z) (f : Task.t -> Task.t) (ts : list Task.t) :
  (forall t, Task.id (f t) = Task.id t) ->
  map Task.id (update_row k f ts) = map Task.id ts.
Proof.
  intros Hf. unfold update_row. rewrite map_map. apply map_ext.
  intros t. destruct (Task.id t =? k); [apply Hf | reflexivity].
Qed.

Lemma update_row_in (k : Z) (f : Task.t -> Task.t) (ts : list Task.t)
      (t : Task.t) :
  In t ts -> Task.id t = k -> In (f t) (update_row k f ts).
Proof.
  intros Hin Hk. unfold update_row. apply in_map_iff. exists t.
  split; [|assumption]. apply Z.eqb_eq in Hk. now rewrite Hk.
Qed.

Lemma update_row_other (k : Z) (f : Task.t -> Task.t) (ts : list Task.t)
      (t : Task.t) :
  In t ts -> Task.id t <> k -> In t (update_row k f ts).
Proof.
  intros Hin Hk. unfold update_row. apply in_map_iff. exists t.
  split; [|assumption]. apply Z.eqb_neq in Hk. now rewrite Hk.
Qed.

Lemma set_done_back (t : Task.t) (v : bool) :
  Task.set_done (Task.done t) (Task.set_done v t) = t.
Proof. now destruct t. Qed.

(** Setting [done] on the row of [t] and then setting it back to what it
    was gives the table back. *)
Lemma update_row_back (ts : list Task.t) (t : Task.t) (v : bool) :
  NoDup (map Task.id ts) -> In t ts ->
  update_row (Task.id t) (Task.set_done (Task.done t))
             (update_row (Task.id t) (Task.set_done v) ts)
  = ts.
Proof.
  intros Hnd Hin. unfold update_row. rewrite map_map.
  rewrite <- (map_id ts) at 2. apply map_ext_in. intros x Hx.
  destruct (Task.id x =? Task.id t) eqn:E.
  - apply Z.eqb_eq in E.
    assert (x = t) as -> by (now apply (NoDup_map_id_inj ts)).
    cbn. rewrite Z.eqb_refl. apply set_done_back.
  - now rewrite E.
Qed.

(** ** Toggling *)

Section Toggle.

Variable pk_of_text : string -> option Z.

(** C7.  In a state whose keys identify rows, with [u] logged in and a
    form whose [task_id] the database reads as a key: for a task [t] of
    [u] with that key, one [/toggle] flips the [done] flag of the row of
    [t] and leaves every other row alone, and a second [/toggle] gives
    back the state there was before the first; and when no row with
    that key belongs to [u] (or the text is no key at all), [/toggle]
    flashes "Task not found or unauthorized action." and leaves the
    state as it was. *)
Theorem toggle_status_twice (s : State) (u : User.t) (form : Form)
        (task_id : string) :
  primary_keys s ->
  current_user s = Some u ->
  form_get form "task_id" = Some task_id ->
  (forall t, In t (tasks s) -> Task.user_id t = User.id u ->
             pk_of_text task_id = Some (Task.id t) ->
     let s1 := snd (toggle_status pk_of_text form s) in
     let s2 := snd (toggle_status pk_of_text form s1) in
     fst (toggle_status pk_of_text form s)
     = flash_and "Task status updated." "success" (redirect "/index")
     /\ Task_query_get (tasks s1) (Task.id t)
        = Some (Task.set_done (negb (Task.done t)) t)
     /\ (forall t', In t' (tasks s) -> Task.id t' <> Task.id t ->
                    In t' (tasks s1))
     /\ s2 = s)
  /\ ((forall k t, pk_of_text task_id = Some k -> In t (tasks s) ->
                   Task.id t = k -> Task.user_id t <> User.id u) ->
      toggle_status pk_of_text form s
      = (flash_and "Task not found or unauthorized action." "danger"
                   (redirect "/index"), s)).
Proof.
  intros [Hkeys _] Hu Hf. split.
  - intros t Hin Hown Hpk.
    assert (Hfirst :
              toggle_status pk_of_text form s
              = (flash_and "Task status updated." "success"
                           (redirect "/index"),
                 with_tasks s
                   (update_row (Task.id t)
                      (Task.set_done (negb (Task.done t))) (tasks s)))).
    { unfold toggle_status, Task_query_get_text.
      rewrite (login_required_some _ _ _ Hu), Hf, Hpk.
      rewrite (Task_query_get_key _ _ Hkeys Hin).
      apply Z.eqb_eq in Hown. now rewrite Hown. }
    rewrite Hfirst. cbn [fst snd].
    set (t1 := Task.set_done (negb (Task.done t)) t).
    set (ts1 := update_row (Task.id t)
                  (Task.set_done (negb (Task.done t))) (tasks s)).
    assert (Hkeys1 : NoDup (map Task.id ts1)).
    { unfold ts1. now rewrite update_row_ids. }
    assert (Hin1 : In t1 ts1).
    { unfold t1, ts1. now apply update_row_in. }
    assert (Hget1 : Task_query_get ts1 (Task.id t) = Some t1).
    { apply (Task_query_get_key ts1 t1 Hkeys1 Hin1). }
    split; [reflexivity|]. split; [exact Hget1|]. split.
    + intros t' Hin' Hne. unfold ts1. now apply update_row_other.
    + unfold toggle_status, Task_query_get_text.
      rewrite (login_required_some _ _ u) by exact Hu.
      rewrite Hf, Hpk. cbn [tasks with_tasks]. fold ts1. rewrite Hget1.
      assert (Hown1 : (Task.user_id t1 =? User.id u) = true).
      { apply Z.eqb_eq. exact Hown. }
      rewrite Hown1. cbn [snd]. unfold with_tasks. cbn.
      rewrite negb_involutive. unfold ts1.
      rewrite (update_row_back _ _ _ Hkeys Hin).
      now destruct s.
  - intros Hnone.
    unfold toggle_status, Task_query_get_text.
    rewrite (login_required_some _ _ _ Hu), Hf.
    destruct (pk_of_text task_id) as [k|] eqn:Hpk; [|reflexivity].
    destruct (Task_query_get (tasks s) k) as [t|] eqn:Hget; [|reflexivity].
    apply Task_query_get_in in Hget. destruct Hget as [Hin Hk].
    pose proof (Hnone k t eq_refl Hin Hk) as Hne.
    apply Z.eqb_neq in Hne. now rewrite Hne.
Qed.

End Toggle.

(** ** Resolving all *)

(** The loop of [/finished] sets [done] on the rows whose key is the key
    of a task of the query that was not done, and on no other row. *)
Lemma resolve_loop_map (found table : list Task.t) :
  resolve_loop found table
  = map (fun t =>
           if existsb (fun task => negb (Task.done task)
                                   && (Task.id t =? Task.id task)) found
           then Task.set_done true t else t)
        table.
Proof.
  unfold resolve_loop. revert table.
  induction found as [|task found IH]; intros table; simpl.
  - now rewrite map_id.
  - rewrite IH. destruct (Task.done task); simpl; [reflexivity|].
    unfold update_row. rewrite map_map. apply map_ext. intros t.
    destruct (Task.id t =? Task.id task) eqn:E; [|reflexivity].
    cbn [orb]. now destruct (existsb _ found).
Qed.

Lemma resolve_loop_all_done (found table : list Task.t) :
  (forall task, In task found -> Task.done task = true) ->
  resolve_loop found table = table.
Proof.
  intros Hdone. rewrite resolve_loop_map.
  rewrite <- (map_id table) at 2. apply map_ext. intros t.
  assert (E : existsb (fun task => negb (Task.done task)
                                   && (Task.id t =? Task.id task)) found
              = false).
  { apply not_true_is_false. intros H. apply existsb_exists in H.
    destruct H as [task [Hin H]]. rewrite (Hdone task Hin) in H.
    discriminate. }
  now rewrite E.
Qed.

(** With keys that identify rows, [/finished] for user [u] is: set
    [done] on each row of [u], leave the others. *)
Lemma resolve_loop_own (u : Z) (table : list Task.t) :
  NoDup (map Task.id table) ->
  resolve_loop (Task_all_by_user_id table u) table
  = map (fun t => if owned_by u t then Task.set_done true t else t) table.
Proof.
  intros Hnd. rewrite resolve_loop_map. apply map_ext_in. intros t Hin.
  unfold owned_by.
  destruct (existsb _ (Task_all_by_user_id table u)) eqn:E.
  - apply existsb_exists in E. destruct E as [task [Htask H]].
    apply andb_true_iff in H. destruct H as [_ Hid]. apply Z.eqb_eq in Hid.
    unfold Task_all_by_user_id in Htask. apply filter_In in Htask.
    destruct Htask as [Htask Hown].
    assert (t = task) as -> by (now apply (NoDup_map_id_inj table)).
    now rewrite Hown.
  - destruct (Task.user_id t =? u) eqn:Hown; [|reflexivity].
    destruct (Task.done t) eqn:Hdone; [now destruct t; cbn in *; subst|].
    exfalso.
    assert (H : existsb (fun task => negb (Task.done task)
                                     && (Task.id t =? Task.id task))
                        (Task_all_by_user_id table u) = true).
    { apply existsb_exists. exists t. split.
      - unfold Task_all_by_user_id. apply filter_In. now split.
      - now rewrite Hdone, Z.eqb_refl. }
    congruence.
Qed.

(** C6.  In a state whose keys identify rows, with [u] logged in: after
    [/finished] every row of [u] has [done] true; the rows of the other
    users are the ones there were, unchanged (and the table is the one
    there was with [done] set on the rows of [u] and nothing else
    touched); and a second [/finished] leaves the whole state as the
    first one left it. *)
Theorem resolve_tasks_idempotent (s : State) (u : User.t) :
  primary_keys s ->
  current_user s = Some u ->
  let s1 := snd (resolve_tasks s) in
  (forall t, In t (tasks s1) -> Task.user_id t = User.id u ->
             Task.done t = true)
  /\ (forall t, Task.user_id t <> User.id u ->
                (In t (tasks s1) <-> In t (tasks s)))
  /\ tasks s1
     = map (fun t => if owned_by (User.id u) t
                     then Task.set_done true t else t) (tasks s)
  /\ users s1 = users s
  /\ session_user_id s1 = session_user_id s
  /\ snd (resolve_tasks s1) = s1.
Proof.
  intros [Hkeys _] Hu s1.
  assert (Hs1 : s1 = with_tasks s
                       (map (fun t => if owned_by (User.id u) t
                                      then Task.set_done true t else t)
                            (tasks s))).
  { unfold s1, resolve_tasks. rewrite (login_required_some _ _ _ Hu).
    cbn [snd]. now rewrite (resolve_loop_own _ _ Hkeys). }
  assert (Hdone : forall t, In t (tasks s1) -> Task.user_id t = User.id u ->
                            Task.done t = true).
  { rewrite Hs1. cbn [tasks with_tasks]. intros t Hin Hown.
    apply in_map_iff in Hin. destruct Hin as [x [Hx _]]. subst t.
    destruct (owned_by (User.id u) x) eqn:E; [reflexivity|].
    unfold owned_by in E. apply Z.eqb_neq in E. contradiction. }
  split; [exact Hdone|]. split; [|split; [|split; [|split]]].
  - intros t Hne. rewrite Hs1. cbn [tasks with_tasks]. rewrite in_map_iff.
    split.
    + intros [x [Hx Hin]].
      destruct (owned_by (User.id u) x) eqn:E.
      * exfalso. apply Hne. subst t. cbn.
        unfold owned_by in E. now apply Z.eqb_eq in E.
      * now subst.
    + intros Hin. exists t. split; [|assumption].
      unfold owned_by. apply Z.eqb_neq in Hne. now rewrite Hne.
  - now rewrite Hs1.
  - now rewrite Hs1.
  - now rewrite Hs1.
  - assert (Hu1 : current_user s1 = Some u) by (now rewrite Hs1).
    unfold resolve_tasks. rewrite (login_required_some _ _ _ Hu1).
    cbn [snd]. rewrite resolve_loop_all_done.
    + rewrite Hs1. reflexivity.
    + intros task Hin. unfold Task_all_by_user_id in Hin.
      apply filter_In in Hin. destruct Hin as [Hin Hown].
      apply Z.eqb_eq in Hown. now apply Hdone.
Qed.

(** ** Registering *)

Lemma User_first_by_username_some (us : list User.t) (name : string) :
  (exists u, In u us /\ User.username u = name) ->
  exists u, User_first_by_username us name = Some u.
Proof.
  intros [u [Hin Hname]]. unfold User_first_by_username.
  destruct (find _ us) as [v|] eqn:E; [now exists v|].
  pose proof (find_none _ _ E u Hin) as H. cbv beta in H.
  apply String.eqb_neq in H. contradiction.
Qed.

Lemma User_first_by_username_none (us : list User.t) (name : string) :
  (forall u, In u us -> User.username u <> name) ->
  User_first_by_username us name = None.
Proof.
  intros Hfree. unfold User_first_by_username.
  destruct (find _ us) as [v|] eqn:E; [|reflexivity].
  apply find_some in E. destruct E as [Hin Hname].
  apply String.eqb_eq in Hname. now apply Hfree in Hin.
Qed.

Lemma User_first_by_email_some (us : list User.t) (mail : string) :
  (exists u, In u us /\ User.email u = mail) ->
  exists u, User_first_by_email us mail = Some u.
Proof.
  intros [u [Hin Hmail]]. unfold User_first_by_email.
  destruct (find _ us) as [v|] eqn:E; [now exists v|].
  pose proof (find_none _ _ E u Hin) as H. cbv beta in H.
  apply String.eqb_neq in H. contradiction.
Qed.

Lemma User_first_by_email_none (us : list User.t) (mail : string) :
  (forall u, In u us -> User.email u <> mail) ->
  User_first_by_email us mail = None.
Proof.
  intros Hfree. unfold User_first_by_email.
  destruct (find _ us) as [v|] eqn:E; [|reflexivity].
  apply find_some in E. destruct E as [Hin Hmail].
  apply String.eqb_eq in Hmail. now apply Hfree in Hin.
Qed.

Section Register.

Variable generate_password_hash : string -> string -> string -> string.

Local Abbreviation register_post := (register generate_password_hash POST).

(** C8.  For a registration form with username, email and password, in
    any state: if a user with that username exists, the request flashes
    "Username already exists. Please choose another one." and leaves the
    state as it was; if a user with that email exists, the request
    flashes that message or "Email already registered. Please log in."
    (the latter when the username is free) and leaves the state as it
    was; if neither exists, the request flashes the success message and
    appends exactly one row to the user table, with a new key, the
    username, the email and the hash of the password, after which a
    registration with the same username, or with the same email, is
    refused and adds no row. *)
Theorem register_conflict (s : State) (form : Form) (salt : string)
        (username email password : string) :
  form_get form "username" = Some username ->
  form_get form "email" = Some email ->
  form_get form "password" = Some password ->
  let username_exists :=
    flash_and "Username already exists. Please choose another one."
              "danger" (redirect "/register") in
  let email_registered :=
    flash_and "Email already registered. Please log in."
              "danger" (redirect "/login") in
  let username_taken (s : State) :=
    exists u, In u (users s) /\ User.username u = username in
  let email_taken (s : State) :=
    exists u, In u (users s) /\ User.email u = email in
  (username_taken s -> register_post form salt s = (username_exists, s))
  /\ (email_taken s ->
        snd (register_post form salt s) = s
        /\ (fst (register_post form salt s) = username_exists
            \/ fst (register_post form salt s) = email_registered)
        /\ (~ username_taken s ->
            fst (register_post form salt s) = email_registered))
  /\ (~ username_taken s -> ~ email_taken s ->
        exists k,
          ~ In k (map User.id (users s))
          /\ let s1 :=
               mk_state
                 (users s
                  ++ [User.mk k username email
                        (generate_password_hash password "pbkdf2:sha256"
                                                salt)])
                 (tasks s) (session_user_id s) in
             register_post form salt s
             = (flash_and "Registration successful! Please log in."
                          "success" (redirect "/login"), s1)
             /\ List.length (users s1) = S (List.length (users s))
             /\ (forall form2 salt2 email2 password2,
                   form_get form2 "username" = Some username ->
                   form_get form2 "email" = Some email2 ->
                   form_get form2 "password" = Some password2 ->
                   register_post form2 salt2 s1 = (username_exists, s1))
             /\ (forall form2 salt2 username2 password2,
                   form_get form2 "username" = Some username2 ->
                   form_get form2 "email" = Some email ->
                   form_get form2 "password" = Some password2 ->
                   snd (register_post form2 salt2 s1) = s1
                   /\ (fst (register_post form2 salt2 s1) = username_exists
                       \/ fst (register_post form2 salt2 s1)
                          = email_registered))).
Proof.
  intros Hn Hm Hp username_exists email_registered username_taken email_taken.
  assert (Hname : forall s0 f0 salt0 m0 p0,
             form_get f0 "username" = Some username ->
             form_get f0 "email" = Some m0 ->
             form_get f0 "password" = Some p0 ->
             username_taken s0 ->
             register_post f0 salt0 s0 = (username_exists, s0)).
  { intros s0 f0 salt0 m0 p0 H1 H2 H3 Htaken.
    unfold register. rewrite H1, H2, H3.
    apply User_first_by_username_some in Htaken.
    destruct Htaken as [v ->]. reflexivity. }
  assert (Hmail : forall s0 f0 salt0 n0 p0,
             form_get f0 "username" = Some n0 ->
             form_get f0 "email" = Some email ->
             form_get f0 "password" = Some p0 ->
             email_taken s0 ->
             snd (register_post f0 salt0 s0) = s0
             /\ (fst (register_post f0 salt0 s0) = username_exists
                 \/ fst (register_post f0 salt0 s0) = email_registered)
             /\ (User_first_by_username (users s0) n0 = None ->
                 fst (register_post f0 salt0 s0) = email_registered)).
  { intros s0 f0 salt0 n0 p0 H1 H2 H3 Htaken.
    unfold register. rewrite H1, H2, H3.
    apply User_first_by_email_some in Htaken.
    destruct Htaken as [v Hv]. rewrite Hv.
    destruct (User_first_by_username (users s0) n0);
      cbn; repeat split; auto; discriminate. }
  split; [|split].
  - intros Htaken. now apply (Hname s form salt email password).
  - intros Htaken.
    destruct (Hmail s form salt username password Hn Hm Hp Htaken)
      as [H1 [H2 H3]].
    split; [exact H1|]. split; [exact H2|].
    intros Hfree. apply H3. apply User_first_by_username_none.
    intros u Hin Hu. apply Hfree. now exists u.
  - intros Hfree_n Hfree_m.
    exists (next_id (map User.id (users s))).
    split; [apply next_id_fresh|]. cbv zeta.
    set (s1 := mk_state _ _ _).
    assert (Hnew : In (User.mk (next_id (map User.id (users s))) username
                         email
                         (generate_password_hash password "pbkdf2:sha256"
                                                 salt))
                      (users s1)).
    { unfold s1. cbn. apply in_or_app. right. now left. }
    split; [|split; [|split]].
    + unfold register. rewrite Hn, Hm, Hp.
      rewrite User_first_by_username_none
        by (intros u Hin Hu; apply Hfree_n; now exists u).
      rewrite User_first_by_email_none
        by (intros u Hin Hu; apply Hfree_m; now exists u).
      reflexivity.
    + unfold s1. cbn. rewrite length_app. cbn. lia.
    + intros form2 salt2 email2 password2 H1 H2 H3.
      apply (Hname s1 form2 salt2 email2 password2 H1 H2 H3).
      eexists. split; [exact Hnew | reflexivity].
    + intros form2 salt2 username2 password2 H1 H2 H3.
      destruct (Hmail s1 form2 salt2 username2 password2 H1 H2 H3)
        as [E1 [E2 _]]; [|now split].
      eexists. split; [exact Hnew | reflexivity].
Qed.

End Register.

(** ** Logging in *)

Lemma User_first_by_username_new (us : list User.t) (new : User.t) :
  (forall u, In u us -> User.username u <> User.username new) ->
  User_first_by_username (us ++ [new]) (User.username new) = Some new.
Proof.
  intros Hfree. unfold User_first_by_username.
  induction us as [|x us IH]; cbn.
  - now rewrite String.eqb_refl.
  - destruct (String.eqb (User.username x) (User.username new)) eqn:E.
    + apply String.eqb_eq in E. exfalso.
      apply (Hfree x); [now left | assumption].
    + apply IH. intros u Hin. apply Hfree. now right.
Qed.

Section Credentials.

Variable generate_password_hash : string -> string -> string -> string.
Variable check_password_hash : string -> string -> bool.

(** X4.  What [app.py] does with a password: a successful registration
    stores what [generate_password_hash] returns for it, and a later
    login with that username succeeds exactly when [check_password_hash]
    accepts the attempt against the stored value; it then puts the id of
    the new user in the session, and otherwise leaves the state as it
    was.  What the two functions return is the business of
    [werkzeug.security]. *)
Lemma login_after_register (s : State) (form : Form) (salt : string)
      (username email password : string) :
  form_get form "username" = Some username ->
  form_get form "email" = Some email ->
  form_get form "password" = Some password ->
  (forall u, In u (users s) -> User.username u <> username) ->
  (forall u, In u (users s) -> User.email u <> email) ->
  let stored := generate_password_hash password "pbkdf2:sha256" salt in
  let s1 := snd (register generate_password_hash POST form salt s) in
  exists new : User.t,
    users s1 = (users s ++ [new])%list
    /\ User.username new = username
    /\ User.password new = stored
    /\ forall form2 attempt,
         form_get form2 "username" = Some username ->
         form_get form2 "password" = Some attempt ->
         login check_password_hash POST form2 s1
         = if check_password_hash stored attempt
           then (flash_and "Login successful!" "success" (redirect "/index"),
                 with_session s1 (Some (User.id new)))
           else (flash_and "Login failed. Incorrect password." "danger"
                           (render_template "login.html" no_context), s1).
Proof.
  intros Hn Hm Hp Hfree_n Hfree_m stored s1.
  assert (Hs1 : s1 = with_users s
                       (add_user username email stored (users s))).
  { unfold s1, register. rewrite Hn, Hm, Hp.
    rewrite (User_first_by_username_none _ _ Hfree_n).
    now rewrite (User_first_by_email_none _ _ Hfree_m). }
  eexists. rewrite Hs1.
  split; [reflexivity|]. split; [reflexivity|]. split; [reflexivity|].
  intros form2 attempt H1 H2. unfold login. rewrite H1, H2.
  cbn [users with_users]. unfold add_user.
  pose proof (User_first_by_username_new (users s)
                (User.mk (next_id (map User.id (users s))) username email
                         stored) Hfree_n) as Hfound.
  cbn [User.username] in Hfound. rewrite Hfound.
  reflexivity.
Qed.

End Credentials.

(** ** Keys stay keys *)

Lemma NoDup_snoc (ids : list Z) (k : Z) :
  NoDup ids -> ~ In k ids -> NoDup (ids ++ [k]).
Proof.
  induction ids as [|x ids IH]; simpl; intros Hnd Hk.
  - constructor; [intros [] | constructor].
  - inversion Hnd as [|? ? Hx Hnd']; subst. constructor.
    + rewrite in_app_iff. simpl. intros [H|[H|[]]]; [contradiction|].
      apply Hk. now left.
    + apply IH; [assumption|]. intros H. apply Hk. now right.
Qed.

Lemma NoDup_map_filter (p : Task.t -> bool) (ts : list Task.t) :
  NoDup (map Task.id ts) -> NoDup (map Task.id (filter p ts)).
Proof.
  induction ts as [|x ts IH]; simpl; intros Hnd; [constructor|].
  inversion Hnd as [|? ? Hx Hnd']; subst.
  destruct (p x); simpl; [|now apply IH].
  constructor; [|now apply IH].
  intros Hin. apply Hx. apply in_map_iff in Hin.
  destruct Hin as [y [Hy Hin]]. apply filter_In in Hin.
  rewrite <- Hy. apply in_map. tauto.
Qed.

Lemma resolve_loop_ids (found table : list Task.t) :
  map Task.id (resolve_loop found table) = map Task.id table.
Proof.
  rewrite resolve_loop_map, map_map. apply map_ext. intros t.
  now destruct (existsb _ found).
Qed.

Lemma table_step_keys (ts ts' : list Task.t) :
  table_step ts ts' -> NoDup (map Task.id ts) -> NoDup (map Task.id ts').
Proof.
  intros Hstep Hnd. destruct Hstep.
  - assumption.
  - unfold add_row. rewrite map_app.
    apply NoDup_snoc; [assumption | apply next_id_fresh].
  - now rewrite update_row_ids.
  - now rewrite update_row_ids.
  - now apply NoDup_map_filter.
  - now rewrite resolve_loop_ids.
Qed.

Lemma users_step_keys (us us' : list User.t) :
  users_step us us' -> NoDup (map User.id us) -> NoDup (map User.id us').
Proof.
  intros Hstep Hnd. destruct Hstep; [assumption|].
  unfold add_user. rewrite map_app.
  apply NoDup_snoc; [assumption | apply next_id_fresh].
Qed.

(** ** Due dates stay *)

Lemma table_step_due_date (ts ts' : list Task.t) :
  table_step ts ts' -> Forall has_due_date ts -> Forall has_due_date ts'.
Proof.
  intros Hstep Hall. destruct Hstep.
  - assumption.
  - unfold add_row. apply Forall_app. split; [assumption|].
    constructor; [discriminate | constructor].
  - unfold update_row. rewrite Forall_map.
    apply (Forall_impl _ (P := has_due_date)); [|assumption].
    intros t Ht. now destruct (Task.id t =? k).
  - unfold update_row. rewrite Forall_map.
    apply (Forall_impl _ (P := has_due_date)); [|assumption].
    intros t Ht. now destruct (Task.id t =? k).
  - unfold delete_row. rewrite Forall_forall in *.
    intros t Hin. apply filter_In in Hin. now apply Hall.
  - rewrite resolve_loop_map, Forall_map.
    apply (Forall_impl _ (P := has_due_date)); [|assumption].
    intros t Ht. now destruct (existsb _ found).
Qed.

(** ** What holds in every state the application reaches *)

Ltac run_handler :=
  repeat match goal with
         | |- context [match ?x with _ => _ end] => destruct x eqn:?
         end;
  cbn; try constructor.

Section Reachable.

Variable generate_password_hash : string -> string -> string -> string.
Variable check_password_hash : string -> string -> bool.
Variable pk_of_text : string -> option Z.

Local Abbreviation serve :=
  (dispatch generate_password_hash check_password_hash pk_of_text).
Local Abbreviation reached :=
  (reachable generate_password_hash check_password_hash pk_of_text).

(** Whatever the request, the task table changes by one of the writes of
    [app.py], or not at all. *)
Lemma dispatch_table_step (r : Request) (s : State) :
  table_step (tasks s) (tasks (snd (serve r s))).
Proof.
  destruct r; cbn [dispatch];
    unfold home, register, login, logout, tasks_list, add_task,
      toggle_status, edit_task, delete_task, resolve_tasks, analytics,
      login_required, abort_400, not_found_or_unauthorized;
    run_handler.
Qed.

Lemma dispatch_users_step (r : Request) (s : State) :
  users_step (users s) (users (snd (serve r s))).
Proof.
  destruct r; cbn [dispatch];
    unfold home, register, login, logout, tasks_list, add_task,
      toggle_status, edit_task, delete_task, resolve_tasks, analytics,
      login_required, abort_400, not_found_or_unauthorized;
    run_handler.
Qed.

(** X10.  Keys identify rows in every state the application reaches: no
    two tasks have the same id and no two users have the same id, as
    every new row is numbered after the largest key of its table and no
    request changes a key. *)
Lemma reachable_primary_keys (s : State) : reached s -> primary_keys s.
Proof.
  induction 1 as [|s r Hs [IHt IHu]].
  - split; constructor.
  - split.
    + exact (table_step_keys _ _ (dispatch_table_step r s) IHt).
    + exact (users_step_keys _ _ (dispatch_users_step r s) IHu).
Qed.

Lemma reachable_due_dates (s : State) :
  reached s -> Forall has_due_date (tasks s).
Proof.
  induction 1 as [|s r Hs IH].
  - constructor.
  - exact (table_step_due_date _ _ (dispatch_table_step r s) IH).
Qed.

(** C10.  [/task] adds no row when the [due_date] field is absent, empty
    or rejected by [strptime]: the state is left as it was.  Whatever
    the form, a row of the table after [/task] that was not there before
    has a due date.  And since no other request adds a task row or
    changes a due date, every task of every state the application
    reaches has a due date, though the column allows it to be empty. *)
Theorem add_task_due_date_invariant :
  (forall (s : State) (form : Form),
      form_get form "due_date" = None
      \/ form_get form "due_date" = Some ""
      \/ (exists text, form_get form "due_date" = Some text
                       /\ strptime text = None) ->
      snd (add_task form s) = s)
  /\ (forall (s : State) (form : Form) (t : Task.t),
        In t (tasks (snd (add_task form s))) -> ~ In t (tasks s) ->
        Task.due_date t <> None)
  /\ (forall s : State, reached s ->
        forall t, In t (tasks s) -> Task.due_date t <> None).
Proof.
  split; [|split].
  - intros s form Hdue.
    assert (Hbad : form_get form "due_date" = None
                   \/ exists text, form_get form "due_date" = Some text
                                   /\ strptime text = None).
    { destruct Hdue as [H|[H|H]]; [now left | right | now right].
      exists "". now split. }
    unfold add_task, login_required, abort_400.
    destruct (current_user s); [|reflexivity].
    destruct (form_get form "content") as [content|]; [|reflexivity].
    destruct Hbad as [->|[text [-> Hparse]]]; [reflexivity|].
    rewrite Hparse. now destruct (String.eqb content "").
  - intros s form t Hin Hnew.
    unfold add_task, login_required, abort_400 in Hin.
    destruct (current_user s); [|contradiction].
    destruct (form_get form "content") as [content|]; [|contradiction].
    destruct (form_get form "due_date") as [text|]; [|contradiction].
    destruct (String.eqb content ""); [contradiction|].
    destruct (strptime text) as [d|]; [|contradiction].
    cbn in Hin. unfold add_row in Hin. apply in_app_or in Hin.
    destruct Hin as [Hin|[<-|[]]]; [contradiction | discriminate].
  - intros s Hs t Hin.
    pose proof (reachable_due_dates s Hs) as Hall.
    rewrite Forall_forall in Hall. now apply Hall.
Qed.

End Reachable.

(** * The model on sample data *)

Lemma sample_primary_keys (who : option Z) : primary_keys (sample who).
Proof.
  split; cbn; repeat constructor; cbn; intuition discriminate.
Qed.

Lemma tasks_list_exactly_own_witness :
  current_user (sample (Some 1)) = Some alice
  /\ exists found,
       tasks_list (sample (Some 1))
       = (mk_reply [] (render_template "index.html" (index_context found)),
          sample (Some 1))
       /\ found = [milk; taxes]
       /\ (forall t, In t found
                     <-> In t (tasks (sample (Some 1)))
                         /\ Task.user_id t = User.id alice)
       /\ (forall t, Task.user_id t <> User.id alice -> ~ In t found).
Proof.
  split; [reflexivity|].
  exact (tasks_list_exactly_own (sample (Some 1)) alice eq_refl).
Defined.

Lemma delete_task_ownership_witness :
  (delete_task 1 (sample (Some 2))
   = (flash_and "Task not found or unauthorized action." "danger"
                (redirect "/index"), sample (Some 2))
   /\ In milk (tasks (snd (delete_task 1 (sample (Some 2))))))
  /\ Task_query_get (tasks (snd (delete_task 1 (sample (Some 1))))) 1 = None
  /\ ~ In milk (tasks (snd (delete_task 1 (sample (Some 1))))).
Proof.
  split.
  - refine (proj1 (delete_task_ownership (sample (Some 2)) bob milk
                     (sample_primary_keys _) eq_refl (or_introl eq_refl)) _).
    cbn. discriminate.
  - pose proof (proj2 (delete_task_ownership (sample (Some 1)) alice milk
                         (sample_primary_keys _) eq_refl
                         (or_introl eq_refl)) eq_refl) as H.
    cbv zeta in H. destruct H as [_ [Hget [Hgone _]]]. now split.
Defined.

Lemma analytics_counts_witness :
  current_user due_yesterday = Some alice
  /\ analytics (fun _ => june_1st) due_yesterday
     = (mk_reply []
          (render_template "analytics.html" (analytics_context 1 0 1 1)),
        due_yesterday).
Proof.
  split; [reflexivity|].
  exact (proj1 (analytics_counts due_yesterday alice (fun _ => june_1st)
                  june_1st eq_refl (fun _ => eq_refl))).
Defined.

(** Against C4 as it is worded: with an empty content the date is not
    looked at, and the message is the one about the text, not the one
    about the date, though [strptime] rejects the date given. *)
Lemma add_task_empty_content_wins :
  current_user (sample (Some 1)) = Some alice
  /\ strptime "2024-02-30" = None
  /\ add_task [("content", ""); ("due_date", "2024-02-30")] (sample (Some 1))
     = (flash_and "Please enter text for your task" "danger"
                  (redirect "/index"), sample (Some 1))
  /\ fst (add_task [("content", ""); ("due_date", "2024-02-30")]
                   (sample (Some 1)))
     <> flash_and "Invalid date format. Please use YYYY-MM-DD." "danger"
                  (redirect "/index").
Proof.
  split; [reflexivity|]. split; [reflexivity|]. split; [reflexivity|].
  cbn. discriminate.
Qed.

Lemma add_task_date_check_witness :
  add_task [("content", "Buy milk"); ("due_date", "2024-02-30")]
           (sample (Some 1))
  = (flash_and "Invalid date format. Please use YYYY-MM-DD." "danger"
               (redirect "/index"), sample (Some 1))
  /\ exists k,
       ~ In k (map Task.id (tasks (sample (Some 1))))
       /\ add_task [("content", "Buy milk"); ("due_date", "2099-01-01")]
                   (sample (Some 1))
          = (flash_and "Task added successfully!" "success"
                       (redirect "/index"),
             mk_state [alice; bob]
               [milk; taxes; letter;
                Task.mk k "Buy milk" false
                        (Some (mk_datetime 2099 1 1 0 0 0 0)) 1]
               (Some 1)).
Proof.
  split.
  - refine (proj1 (add_task_date_check (sample (Some 1)) alice
                     [("content", "Buy milk"); ("due_date", "2024-02-30")]
                     "Buy milk" "2024-02-30" eq_refl eq_refl eq_refl _)
                  eq_refl).
    discriminate.
  - refine (proj1 (proj2 (add_task_date_check (sample (Some 1)) alice
                     [("content", "Buy milk"); ("due_date", "2099-01-01")]
                     "Buy milk" "2099-01-01" eq_refl eq_refl eq_refl _))
                  (mk_datetime 2099 1 1 0 0 0 0) eq_refl).
    discriminate.
Defined.

Lemma add_task_empty_content_witness :
  add_task [("content", ""); ("due_date", "2099-01-01")] (sample (Some 1))
  = (flash_and "Please enter text for your task" "danger"
               (redirect "/index"), sample (Some 1))
  /\ tasks (snd (add_task [("content", ""); ("due_date", "2099-01-01")]
                          (sample (Some 1))))
     = [milk; taxes; letter].
Proof.
  exact (add_task_empty_content (sample (Some 1)) alice
           [("content", ""); ("due_date", "2099-01-01")] "2099-01-01"
           eq_refl eq_refl eq_refl).
Defined.

Lemma resolve_tasks_idempotent_witness :
  tasks (snd (resolve_tasks (sample (Some 1))))
  = [Task.set_done true milk; taxes; letter]
  /\ snd (resolve_tasks (snd (resolve_tasks (sample (Some 1)))))
     = snd (resolve_tasks (sample (Some 1))).
Proof.
  pose proof (resolve_tasks_idempotent (sample (Some 1)) alice
                (sample_primary_keys _) eq_refl) as H.
  cbv zeta in H. destruct H as [_ [_ [Htable [_ [_ Hagain]]]]].
  split; [exact Htable | exact Hagain].
Defined.

Lemma toggle_status_twice_witness :
  Task_query_get
    (tasks (snd (toggle_status sample_pk_of_text [("task_id", "1")]
                               (sample (Some 1))))) 1
  = Some (Task.set_done true milk)
  /\ snd (toggle_status sample_pk_of_text [("task_id", "1")]
            (snd (toggle_status sample_pk_of_text [("task_id", "1")]
                                (sample (Some 1)))))
     = sample (Some 1)
  /\ toggle_status sample_pk_of_text [("task_id", "3")] (sample (Some 1))
     = (flash_and "Task not found or unauthorized action." "danger"
                  (redirect "/index"), sample (Some 1)).
Proof.
  pose proof (proj1 (toggle_status_twice sample_pk_of_text (sample (Some 1))
                       alice [("task_id", "1")] "1"
                       (sample_primary_keys _) eq_refl eq_refl)
                    milk (or_introl eq_refl) eq_refl eq_refl) as H.
  cbv zeta in H. destruct H as [_ [Hflip [_ Hback]]].
  split; [exact Hflip|]. split; [exact Hback|].
  refine (proj2 (toggle_status_twice sample_pk_of_text (sample (Some 1))
                   alice [("task_id", "3")] "3"
                   (sample_primary_keys _) eq_refl eq_refl) _).
  intros k t Hk Hin Hid. injection Hk as <-.
  destruct Hin as [<-|[<-|[<-|[]]]]; cbn in *; discriminate.
Defined.

Lemma register_conflict_witness :
  register sample_hash POST
    [("username", "alice"); ("email", "new@x.com"); ("password", "pw")]
    "salt" (sample None)
  = (flash_and "Username already exists. Please choose another one."
               "danger" (redirect "/register"), sample None)
  /\ fst (register sample_hash POST
            [("username", "carol"); ("email", "b@x.com"); ("password", "pw")]
            "salt" (sample None))
     = flash_and "Email already registered. Please log in." "danger"
                 (redirect "/login")
  /\ exists k,
       ~ In k [1; 2]
       /\ register sample_hash POST
            [("username", "carol"); ("email", "c@x.com"); ("password", "pw")]
            "salt" (sample None)
          = (flash_and "Registration successful! Please log in." "success"
                       (redirect "/login"),
             mk_state [alice; bob; User.mk k "carol" "c@x.com" "salt$pw"]
                      [milk; taxes; letter] None).
Proof.
  split; [|split].
  - refine (proj1 (register_conflict sample_hash (sample None)
                     [("username", "alice"); ("email", "new@x.com");
                      ("password", "pw")]
                     "salt" "alice" "new@x.com" "pw"
                     eq_refl eq_refl eq_refl) _).
    exists alice. split; [now left | reflexivity].
  - pose proof (proj1 (proj2 (register_conflict sample_hash (sample None)
                     [("username", "carol"); ("email", "b@x.com");
                      ("password", "pw")]
                     "salt" "carol" "b@x.com" "pw"
                     eq_refl eq_refl eq_refl))) as H.
    cbv zeta in H.
    refine (proj2 (proj2 (H _)) _).
    + exists bob. split; [right; now left | reflexivity].
    + intros [u [[<-|[<-|[]]] Hu]]; discriminate.
  - pose proof (proj2 (proj2 (register_conflict sample_hash (sample None)
                     [("username", "carol"); ("email", "c@x.com");
                      ("password", "pw")]
                     "salt" "carol" "c@x.com" "pw"
                     eq_refl eq_refl eq_refl))) as H.
    cbv zeta in H.
    destruct H as [k [Hk [Hreg _]]].
    + intros [u [[<-|[<-|[]]] Hu]]; discriminate.
    + intros [u [[<-|[<-|[]]] Hu]]; discriminate.
    + exists k. split; [exact Hk | exact Hreg].
Defined.

Lemma reachable_run (gen : string -> string -> string -> string)
      (check : string -> string -> bool) (pk : string -> option Z)
      (rs : list Request) (s : State) :
  reachable gen check pk s ->
  reachable gen check pk (run (dispatch gen check pk) rs s).
Proof.
  revert s. induction rs as [|r rs IH]; intros s Hs; cbn; [assumption|].
  apply IH. now constructor.
Qed.

Lemma add_task_due_date_invariant_witness :
  tasks (run sample_dispatch journey initial)
  = [Task.mk 1 "Buy milk" false (Some (mk_datetime 2099 1 1 0 0 0 0)) 1]
  /\ forall t, In t (tasks (run sample_dispatch journey initial)) ->
               Task.due_date t <> None.
Proof.
  split; [reflexivity|].
  exact (proj2 (proj2 (add_task_due_date_invariant sample_hash sample_check
                         sample_pk_of_text))
               (run sample_dispatch journey initial)
               (reachable_run _ _ _ journey initial
                  (reachable_initial _ _ _))).
Defined.

(** The walk through the application of the repository's description:
    register, log in, add "Buy milk" due 2099-01-01; [/index] then shows
    one task, not done; after a toggle, [/analytics] counts one task
    completed and none pending. *)
Example end_to_end :
  let s := run sample_dispatch journey initial in
  session_user_id s = Some 1
  /\ fst (sample_dispatch request_index s)
     = mk_reply []
         (render_template "index.html"
            (index_context
               [Task.mk 1 "Buy milk" false
                        (Some (mk_datetime 2099 1 1 0 0 0 0)) 1]))
  /\ fst (sample_dispatch (request_analytics (fun _ => june_1st))
            (snd (sample_dispatch (request_toggle [("task_id", "1")]) s)))
     = mk_reply []
         (render_template "analytics.html" (analytics_context 1 1 0 0)).
Proof. cbv zeta. repeat split. Qed.

(** * More of the application *)

(** ** What each request does *)

Lemma User_first_by_username_free (us : list User.t) (name : string) :
  User_first_by_username us name = None ->
  forall u, In u us -> User.username u <> name.
Proof.
  unfold User_first_by_username. intros H u Hin.
  pose proof (find_none _ _ H u Hin) as Hf. cbv beta in Hf.
  now apply String.eqb_neq.
Qed.

Lemma User_first_by_email_free (us : list User.t) (mail : string) :
  User_first_by_email us mail = None ->
  forall u, In u us -> User.email u <> mail.
Proof.
  unfold User_first_by_email. intros H u Hin.
  pose proof (find_none _ _ H u Hin) as Hf. cbv beta in Hf.
  now apply String.eqb_neq.
Qed.

Lemma User_first_by_username_in (us : list User.t) (name : string)
      (u : User.t) :
  User_first_by_username us name = Some u ->
  In u us /\ User.username u = name.
Proof.
  unfold User_first_by_username. intros H. apply find_some in H.
  destruct H as [Hin Hname]. split; [assumption|].
  now apply String.eqb_eq.
Qed.

Lemma current_user_in (s : State) (u : User.t) :
  current_user s = Some u ->
  In u (users s) /\ session_user_id s = Some (User.id u).
Proof.
  unfold current_user, User_query_get.
  destruct (session_user_id s) as [k|]; [|discriminate].
  intros H. apply find_some in H. destruct H as [Hin Hk].
  apply Z.eqb_eq in Hk. now subst.
Qed.

Ltac split_handler :=
  repeat match goal with
         | |- context [match ?x with _ => _ end] => destruct x eqn:?
         end;
  cbn [snd].

Ltac found_task :=
  try match goal with
      | H : match ?o with _ => _ end = Some _ |- _ =>
          destruct o; [|discriminate H]
      end;
  match goal with
  | H : Task_query_get _ _ = Some _ |- _ =>
      apply Task_query_get_in in H; destruct H
  end.

Section Effects.

Variable generate_password_hash : string -> string -> string -> string.
Variable check_password_hash : string -> string -> bool.
Variable pk_of_text : string -> option Z.

Local Abbreviation serve :=
  (dispatch generate_password_hash check_password_hash pk_of_text).

(** Whatever the request, the state changes by one of the writes of
    [app.py], made under the checks of its handler, or not at all. *)
Lemma dispatch_effect (r : Request) (s : State) :
  effect s (snd (serve r s)).
Proof.
  destruct r; cbn [dispatch];
    unfold home, register, login, logout, tasks_list, add_task,
      toggle_status, edit_task, delete_task, resolve_tasks, analytics,
      login_required, abort_400, not_found_or_unauthorized,
      Task_query_get_text;
    split_handler; try apply effect_none.
  - apply effect_register;
      [now apply User_first_by_username_free
      | now apply User_first_by_email_free].
  - apply effect_login.
    match goal with
    | H : User_first_by_username _ _ = Some _ |- _ =>
        now apply User_first_by_username_in in H
    end.
  - apply effect_logout.
  - match goal with
    | H : strptime ?text = Some _ |- _ => eapply (effect_add s _ _ text)
    end; try eassumption.
    now apply String.eqb_neq.
  - found_task. eapply effect_toggle; try eassumption. now apply Z.eqb_eq.
  - found_task. eapply effect_edit; try eassumption;
      [now apply Z.eqb_eq | now apply String.eqb_neq].
  - found_task. eapply effect_delete; try eassumption. now apply Z.eqb_eq.
  - eapply effect_resolve. eassumption.
Qed.

End Effects.

(** ** What the writes preserve *)

Lemma NoDup_snoc_any {A : Type} (l : list A) (x : A) :
  NoDup l -> ~ In x l -> NoDup (l ++ [x]).
Proof.
  induction l as [|y l IH]; simpl; intros Hnd Hx.
  - constructor; [intros [] | constructor].
  - inversion Hnd as [|? ? Hy Hnd']; subst. constructor.
    + rewrite in_app_iff. simpl. intros [H|[H|[]]]; [contradiction|].
      apply Hx. now left.
    + apply IH; [assumption|]. intros H. apply Hx. now right.
Qed.

Lemma effect_unique_names (s s' : State) :
  effect s s' -> unique_names s -> unique_names s'.
Proof.
  intros He [Hn Hm]. destruct He; try (split; assumption).
  unfold unique_names, with_users, add_user. cbn [users].
  rewrite !map_app. cbn [map User.username User.email].
  split; apply NoDup_snoc_any; try assumption.
  - intros Hin. apply in_map_iff in Hin. destruct Hin as [u [Hu Hin]].
    now apply (H u).
  - intros Hin. apply in_map_iff in Hin. destruct Hin as [u [Hu Hin]].
    now apply (H0 u).
Qed.

Lemma effect_session_valid (s s' : State) :
  effect s s' -> session_valid s -> session_valid s'.
Proof.
  intros He Hv. destruct He; try exact Hv.
  - intros k Hk. destruct (Hv k Hk) as [u [Hin Hu]]. exists u.
    split; [|assumption]. cbn. unfold add_user. apply in_or_app. now left.
  - intros k Hk. cbn in Hk. injection Hk as <-. now exists user.
  - intros k Hk. discriminate.
Qed.

(** A condition on rows that the attribute writes keep and that a new
    row meets holds on the whole table after any write. *)
Lemma effect_rows (P : Task.t -> Prop) (s s' : State) :
  effect s s' ->
  (forall t v, P t -> P (Task.set_done v t)) ->
  (forall t c, c <> "" -> P t -> P (Task.set_content c t)) ->
  (forall u k c text d,
      current_user s = Some u -> c <> "" -> strptime text = Some d ->
      P (Task.mk k c false (Some d) (User.id u))) ->
  Forall P (tasks s) -> Forall P (tasks s').
Proof.
  intros He Hdone Hcontent Hnew Hall.
  destruct He; cbn [tasks with_tasks with_users with_session];
    try assumption.
  - unfold add_row. apply Forall_app. split; [assumption|].
    constructor; [|constructor]. now apply (Hnew u _ c text d).
  - unfold update_row. rewrite Forall_map.
    apply (Forall_impl _ (P := P)); [|assumption].
    intros t Ht. destruct (Task.id t =? Task.id task); auto.
  - unfold update_row. rewrite Forall_map.
    apply (Forall_impl _ (P := P)); [|assumption].
    intros t Ht. destruct (Task.id t =? Task.id task); auto.
  - unfold delete_row. rewrite Forall_forall in *.
    intros t Hin. apply filter_In in Hin. now apply Hall.
  - rewrite resolve_loop_map, Forall_map.
    apply (Forall_impl _ (P := P)); [|assumption].
    intros t Ht. destruct (existsb _ _); auto.
Qed.

Lemma effect_users_grow (s s' : State) (u : User.t) :
  effect s s' -> In u (users s) -> In u (users s').
Proof.
  intros He Hin. destruct He; try assumption.
  cbn. unfold add_user. apply in_or_app. now left.
Qed.

Lemma effect_owners_exist (s s' : State) :
  effect s s' -> owners_exist s -> owners_exist s'.
Proof.
  intros He Hown.
  assert (Hall : Forall (fun t => exists u, In u (users s)
                                            /\ User.id u = Task.user_id t)
                        (tasks s')).
  { apply (effect_rows _ s s' He); try (intros; assumption).
    - intros u k c text d Hu _ _. exists u. split; [|reflexivity].
      now apply current_user_in in Hu.
    - apply Forall_forall. exact Hown. }
  rewrite Forall_forall in Hall. intros t Hin.
  destruct (Hall t Hin) as [u [Hu Hid]]. exists u. split; [|assumption].
  now apply (effect_users_grow s s').
Qed.

Lemma strptime_calendar (text : string) (d : datetime) :
  strptime text = Some d -> calendar_midnight d.
Proof.
  unfold strptime.
  destruct (regex_match text) as [[[[y m] d'] rest]|]; [|discriminate].
  destruct rest; [|discriminate].
  destruct (valid_date y m d') eqn:Hv; [|discriminate].
  intros H. injection H as <-. unfold calendar_midnight. cbn.
  repeat split. exact Hv.
Qed.

(** ** Conditions that hold in every state the application reaches *)

Section Invariants.

Variable generate_password_hash : string -> string -> string -> string.
Variable check_password_hash : string -> string -> bool.
Variable pk_of_text : string -> option Z.

Local Abbreviation reached :=
  (reachable generate_password_hash check_password_hash pk_of_text).

Lemma reachable_by_effects (P : State -> Prop) :
  P initial ->
  (forall s s', effect s s' -> P s -> P s') ->
  forall s, reached s -> P s.
Proof.
  intros Hinit Hstep s Hs. induction Hs as [|s r Hs IH]; [assumption|].
  apply (Hstep s); [apply dispatch_effect | assumption].
Qed.

(** X11.  In every state the application reaches, no two users have the
    same username and no two users have the same email: [/register]
    looks both up before it adds a row. *)
Theorem reachable_unique_names (s : State) :
  reached s ->
  NoDup (map User.username (users s)) /\ NoDup (map User.email (users s)).
Proof.
  apply (reachable_by_effects unique_names).
  - split; constructor.
  - exact effect_unique_names.
Qed.

(** X12.  In every state the application reaches, an id kept in the
    session is the id of a user of the table, so that [load_user] finds
    the acting user: users are never removed, and [/login] stores the id
    of a row it has just read. *)
Theorem reachable_session_valid (s : State) (k : Z) :
  reached s ->
  session_user_id s = Some k ->
  exists u, current_user s = Some u /\ In u (users s) /\ User.id u = k.
Proof.
  intros Hs Hk.
  assert (Hv : session_valid s).
  { clear Hk. revert s Hs. apply (reachable_by_effects session_valid).
    - intros k' Hk'. discriminate.
    - exact effect_session_valid. }
  destruct (Hv k Hk) as [u [Hin Hu]].
  unfold current_user, User_query_get. rewrite Hk.
  destruct (find (fun x => User.id x =? k) (users s)) as [v|] eqn:E.
  - apply find_some in E. destruct E as [Hv1 Hv2]. apply Z.eqb_eq in Hv2.
    now exists v.
  - pose proof (find_none _ _ E u Hin) as Hf. cbv beta in Hf.
    apply Z.eqb_neq in Hf. contradiction.
Qed.

(** X13.  In every state the application reaches, the [user_id] of each
    task is the id of a user of the table: [/task] takes it from the
    acting user, and no request changes it or removes a user. *)
Theorem reachable_owners_exist (s : State) (t : Task.t) :
  reached s ->
  In t (tasks s) ->
  exists u, In u (users s) /\ User.id u = Task.user_id t.
Proof.
  intros Hs. revert t. change (owners_exist s). revert s Hs.
  apply (reachable_by_effects owners_exist).
  - intros t [].
  - exact effect_owners_exist.
Qed.

(** X14.  In every state the application reaches, no task has an empty
    content: [/task] and [/edit] both refuse an empty text before they
    write. *)
Theorem reachable_content_nonempty (s : State) (t : Task.t) :
  reached s -> In t (tasks s) -> Task.content t <> "".
Proof.
  intros Hs.
  assert (Hall : Forall (fun t => Task.content t <> "") (tasks s)).
  { revert s Hs.
    apply (reachable_by_effects
             (fun s => Forall (fun t => Task.content t <> "") (tasks s))).
    - constructor.
    - intros s s' He. apply (effect_rows _ s s' He).
      + intros x v Hx. exact Hx.
      + intros x c Hc _. exact Hc.
      + intros u k c text d _ Hc _. exact Hc. }
  rewrite Forall_forall in Hall. apply Hall.
Qed.

(** X15.  In every state the application reaches, the due date of each
    task is a day the calendar has (year 1 to 9999, month 1 to 12, a day
    of that month, 29 February in leap years only), at midnight: it is
    what [strptime] made of the form field, and nothing changes it. *)
Theorem reachable_due_dates_calendar (s : State) (t : Task.t) :
  reached s ->
  In t (tasks s) ->
  exists d, Task.due_date t = Some d
            /\ valid_date (year d) (month d) (day d) = true
            /\ hour d = 0 /\ minute d = 0 /\ second d = 0
            /\ microsecond d = 0.
Proof.
  intros Hs.
  assert (Hall : Forall (fun t => exists d, Task.due_date t = Some d
                                            /\ calendar_midnight d)
                        (tasks s)).
  { revert s Hs.
    apply (reachable_by_effects
             (fun s => Forall (fun t => exists d, Task.due_date t = Some d
                                                  /\ calendar_midnight d)
                              (tasks s))).
    - constructor.
    - intros s s' He. apply (effect_rows _ s s' He).
      + intros x v Hx. exact Hx.
      + intros x c _ Hx. exact Hx.
      + intros u k c text d _ _ Hd. exists d. split; [reflexivity|].
        now apply (strptime_calendar text). }
  rewrite Forall_forall in Hall. exact (Hall t).
Qed.

End Invariants.

(** ** Who can change what *)

Lemma update_row_other_owner (ts : list Task.t) (task t : Task.t)
      (f : Task.t -> Task.t) :
  NoDup (map Task.id ts) -> In task ts ->
  (forall x, Task.user_id (f x) = Task.user_id x) ->
  Task.user_id t <> Task.user_id task ->
  (In t (update_row (Task.id task) f ts) <-> In t ts).
Proof.
  intros Hnd Htask Hf Hne. unfold update_row. rewrite in_map_iff. split.
  - intros [x [Hx Hin]].
    destruct (Task.id x =? Task.id task) eqn:E.
    + apply Z.eqb_eq in E.
      assert (x = task) as -> by (now apply (NoDup_map_id_inj ts)).
      exfalso. apply Hne. now rewrite <- Hx, Hf.
    + now subst.
  - intros Hin. exists t. split; [|assumption].
    destruct (Task.id t =? Task.id task) eqn:E; [|reflexivity].
    apply Z.eqb_eq in E.
    assert (t = task) as -> by (now apply (NoDup_map_id_inj ts)).
    contradiction.
Qed.

Lemma effect_other_owner (s s' : State) (t : Task.t) :
  effect s s' ->
  NoDup (map Task.id (tasks s)) ->
  (forall u, current_user s = Some u -> Task.user_id t <> User.id u) ->
  (In t (tasks s') <-> In t (tasks s)).
Proof.
  intros He Hnd Hother.
  destruct He; cbn [tasks with_tasks with_users with_session];
    try reflexivity.
  - unfold add_row. rewrite in_app_iff. split; [|now left].
    intros [Hin|[<-|[]]]; [assumption|].
    exfalso. now apply (Hother u).
  - apply update_row_other_owner; try assumption; [reflexivity|].
    rewrite H1. now apply Hother.
  - apply update_row_other_owner; try assumption; [reflexivity|].
    rewrite H1. now apply Hother.
  - rewrite delete_row_in. split; [tauto|].
    intros Hin. split; [assumption|]. intros Hid.
    assert (t = task) as -> by (now apply (NoDup_map_id_inj (tasks s))).
    now apply (Hother u).
  - rewrite (resolve_loop_own _ _ Hnd), in_map_iff.
    specialize (Hother u H). split.
    + intros [x [Hx Hin]]. unfold owned_by in Hx.
      destruct (Task.user_id x =? User.id u) eqn:E; [|now subst].
      apply Z.eqb_eq in E. exfalso. apply Hother. now rewrite <- Hx.
    + intros Hin. exists t. split; [|assumption].
      unfold owned_by. apply Z.eqb_neq in Hother. now rewrite Hother.
Qed.

Section Isolation.

Variable generate_password_hash : string -> string -> string -> string.
Variable check_password_hash : string -> string -> bool.
Variable pk_of_text : string -> option Z.

Local Abbreviation serve :=
  (dispatch generate_password_hash check_password_hash pk_of_text).

(** X9.  In a state whose task keys identify rows, no request changes a
    task of somebody else: whatever the request, a task that is not owned
    by the acting user (any task, when nobody is logged in) is in the
    table afterwards if and only if it was there before, with all its
    fields. *)
Theorem other_users_tasks_untouched (r : Request) (s : State) (t : Task.t) :
  NoDup (map Task.id (tasks s)) ->
  (forall u, current_user s = Some u -> Task.user_id t <> User.id u) ->
  (In t (tasks (snd (serve r s))) <-> In t (tasks s)).
Proof.
  intros Hnd Hother.
  exact (effect_other_owner s _ t (dispatch_effect _ _ _ r s) Hnd Hother).
Qed.

(** X8.  Each table is written by its own routes only: the user table
    changes on a POST to [/register] and on nothing else, and then by
    one row added at the end, the rows there were staying as they are;
    the task table changes on [/task], [/toggle], [/edit], [/delete] and
    [/finished] only; the session on a POST to [/login] and on [/logout]
    only.  So registering logs nobody in, and the pages [/], [/index] and
    [/analytics] change nothing. *)
Theorem request_frame (r : Request) (s : State) :
  let s' := snd (serve r s) in
  (writes_users r = false -> users s' = users s)
  /\ (exists extra, users s' = (users s ++ extra)%list
                    /\ (List.length extra <= 1)%nat)
  /\ (writes_tasks r = false -> tasks s' = tasks s)
  /\ (writes_session r = false -> session_user_id s' = session_user_id s).
Proof.
  cbv zeta. split; [|split; [|split]].
  - destruct r; try match goal with m : Method |- _ => destruct m end;
      try discriminate; intros _; cbn [dispatch];
      unfold home, register, login, logout, tasks_list, add_task,
        toggle_status, edit_task, delete_task, resolve_tasks, analytics,
        login_required, abort_400, not_found_or_unauthorized;
      split_handler; reflexivity.
  - destruct (dispatch_effect generate_password_hash check_password_hash
                pk_of_text r s);
      try (exists []; rewrite app_nil_r; split; [reflexivity | cbn; lia]).
    eexists. split; [reflexivity | cbn; lia].
  - destruct r; try match goal with m : Method |- _ => destruct m end;
      try discriminate; intros _; cbn [dispatch];
      unfold home, register, login, logout, tasks_list, analytics,
        login_required, abort_400;
      split_handler; reflexivity.
  - destruct r; try match goal with m : Method |- _ => destruct m end;
      try discriminate; intros _; cbn [dispatch];
      unfold home, register, login, tasks_list, add_task,
        toggle_status, edit_task, delete_task, resolve_tasks, analytics,
        login_required, abort_400, not_found_or_unauthorized;
      split_handler; reflexivity.
Qed.

Lemma protected_needs_user (r : Request) (s : State) :
  current_user s = None -> protected r = true ->
  serve r s = (mk_reply [] unauthorized, s).
Proof.
  intros Hnone.
  destruct r; try discriminate; intros _; cbn [dispatch];
    unfold logout, tasks_list, add_task, toggle_status, edit_task,
      delete_task, resolve_tasks, analytics;
    now apply login_required_none.
Qed.

(** X6.  Without a session, or with a session whose id is the id of no
    user, every route under [@login_required] answers with the redirect
    to the login page and leaves the state as it was; the form is not
    even read.  [/] then redirects to [/register]. *)
Theorem no_session_no_write (r : Request) (s : State) :
  current_user s = None ->
  (protected r = true -> serve r s = (mk_reply [] unauthorized, s))
  /\ serve request_home s = (mk_reply [] (redirect "/register"), s).
Proof.
  intros Hnone. split.
  - now apply protected_needs_user.
  - cbn [dispatch]. unfold home. now rewrite Hnone.
Qed.

(** X5.  [/logout] by a logged-in user flashes "You have logged out.",
    redirects to [/login], empties the session and leaves both tables
    as they are; every route under [@login_required], [/logout] itself
    included, then answers with the redirect to the login page and
    changes nothing. *)
Theorem logout_ends_session (s : State) (u : User.t) :
  current_user s = Some u ->
  let s1 := snd (logout s) in
  fst (logout s)
  = flash_and "You have logged out." "success" (redirect "/login")
  /\ users s1 = users s /\ tasks s1 = tasks s
  /\ current_user s1 = None
  /\ (forall r, protected r = true ->
                serve r s1 = (mk_reply [] unauthorized, s1)).
Proof.
  intros Hu. cbv zeta. unfold logout.
  rewrite (login_required_some _ _ _ Hu). cbn [fst snd].
  split; [reflexivity|]. split; [reflexivity|]. split; [reflexivity|].
  split; [reflexivity|].
  intros r Hr. now apply protected_needs_user.
Qed.

End Isolation.

(** ** Editing *)

Lemma Task_query_get_update (k : Z) (f : Task.t -> Task.t)
      (ts : list Task.t) :
  (forall x, Task.id (f x) = Task.id x) ->
  Task_query_get (update_row k f ts) k = option_map f (Task_query_get ts k).
Proof.
  intros Hf. unfold Task_query_get, update_row.
  induction ts as [|x ts IH]; cbn; [reflexivity|].
  destruct (Task.id x =? k) eqn:E.
  - now rewrite Hf, E.
  - now rewrite E.
Qed.

Lemma update_row_other_key (k : Z) (f : Task.t -> Task.t)
      (ts : list Task.t) (t : Task.t) :
  (forall x, Task.id (f x) = Task.id x) ->
  Task.id t <> k ->
  (In t (update_row k f ts) <-> In t ts).
Proof.
  intros Hf Hk. unfold update_row. rewrite in_map_iff. split.
  - intros [x [Hx Hin]].
    destruct (Task.id x =? k) eqn:E; [|now subst].
    apply Z.eqb_eq in E. exfalso. apply Hk. now rewrite <- Hx, Hf.
  - intros Hin. exists t. split; [|assumption].
    apply Z.eqb_neq in Hk. now rewrite Hk.
Qed.

Lemma update_row_twice (k : Z) (f g : Task.t -> Task.t) (ts : list Task.t) :
  (forall x, Task.id (f x) = Task.id x) ->
  update_row k g (update_row k f ts)
  = update_row k (fun x => g (f x)) ts.
Proof.
  intros Hf. unfold update_row. rewrite map_map. apply map_ext.
  intros x. destruct (Task.id x =? k) eqn:E.
  - now rewrite Hf, E.
  - now rewrite E.
Qed.

Section Edit.

Variable pk_of_text : string -> option Z.

Local Abbreviation edit := (edit_task pk_of_text).

(** X1.  For a logged-in user [u] and a form with [task_id] and
    [edit_text]: an empty text is refused with "Please enter text for
    your task" before any task is looked up, and nothing changes; with
    a text that is not empty and keys that identify rows, the owner's
    request flashes "Task updated successfully." and replaces the content
    of that row, keeping its key, [done], due date and owner, the place
    of every row and every other row as it is; and when the key is no
    task of [u] (another user's, none, or a text the database reads as
    no key), the request flashes "Task not found or unauthorized action."
    and changes nothing. *)
Theorem edit_task_ownership (s : State) (u : User.t) (form : Form)
        (task_id edit_text : string) :
  current_user s = Some u ->
  form_get form "task_id" = Some task_id ->
  form_get form "edit_text" = Some edit_text ->
  (edit_text = "" ->
     edit form s
     = (flash_and "Please enter text for your task" "danger"
                  (redirect "/index"), s))
  /\ (edit_text <> "" ->
      (forall t, NoDup (map Task.id (tasks s)) -> In t (tasks s) ->
                 Task.user_id t = User.id u ->
                 pk_of_text task_id = Some (Task.id t) ->
         let s1 := snd (edit form s) in
         fst (edit form s)
         = flash_and "Task updated successfully." "success"
                     (redirect "/index")
         /\ Task_query_get (tasks s1) (Task.id t)
            = Some (Task.mk (Task.id t) edit_text (Task.done t)
                            (Task.due_date t) (Task.user_id t))
         /\ map Task.id (tasks s1) = map Task.id (tasks s)
         /\ (forall t', Task.id t' <> Task.id t ->
                        (In t' (tasks s1) <-> In t' (tasks s)))
         /\ users s1 = users s
         /\ session_user_id s1 = session_user_id s)
      /\ ((forall k t, pk_of_text task_id = Some k -> In t (tasks s) ->
                       Task.id t = k -> Task.user_id t <> User.id u) ->
          edit form s
          = (flash_and "Task not found or unauthorized action." "danger"
                       (redirect "/index"), s))).
Proof.
  intros Hu Hid Htext. unfold edit_task, Task_query_get_text.
  rewrite (login_required_some _ _ _ Hu), Hid, Htext. split.
  - now intros ->.
  - intros Hne. rewrite (String_eqb_empty _ Hne). split.
    + intros t Hnd Hin Hown Hpk. rewrite Hpk.
      rewrite (Task_query_get_key _ _ Hnd Hin).
      apply Z.eqb_eq in Hown. rewrite Hown. cbn [fst snd tasks with_tasks].
      split; [reflexivity|]. split; [|split; [|split; [|split]]].
      * rewrite Task_query_get_update by reflexivity.
        now rewrite (Task_query_get_key _ _ Hnd Hin).
      * now apply update_row_ids.
      * intros t' Hk. now apply update_row_other_key.
      * reflexivity.
      * reflexivity.
    + intros Hnone.
      destruct (pk_of_text task_id) as [k|] eqn:Hpk; [|reflexivity].
      destruct (Task_query_get (tasks s) k) as [t|] eqn:Hget; [|reflexivity].
      apply Task_query_get_in in Hget. destruct Hget as [Hin Hk].
      pose proof (Hnone k t eq_refl Hin Hk) as Hother.
      apply Z.eqb_neq in Hother. now rewrite Hother.
Qed.

(** X2.  The last edit wins: for a logged-in user, an edit followed by
    an edit of the same key with a text that is not empty leaves the
    state that the second edit alone would have left, whatever the first
    text was and whoever owns the task. *)
Theorem edit_task_last_write (s : State) (u : User.t) (form1 form2 : Form)
        (task_id text1 text2 : string) :
  current_user s = Some u ->
  form_get form1 "task_id" = Some task_id ->
  form_get form1 "edit_text" = Some text1 ->
  form_get form2 "task_id" = Some task_id ->
  form_get form2 "edit_text" = Some text2 ->
  text2 <> "" ->
  snd (edit form2 (snd (edit form1 s))) = snd (edit form2 s).
Proof.
  intros Hu Hid1 Ht1 Hid2 Ht2 Hne.
  assert (Hstate : forall s0 form text,
            current_user s0 = Some u ->
            form_get form "task_id" = Some task_id ->
            form_get form "edit_text" = Some text ->
            snd (edit form s0)
            = if String.eqb text "" then s0
              else
                match Task_query_get_text pk_of_text (tasks s0) task_id with
                | Some task =>
                    if Task.user_id task =? User.id u
                    then with_tasks s0
                           (update_row (Task.id task)
                              (Task.set_content text) (tasks s0))
                    else s0
                | None => s0
                end).
  { intros s0 form text Hu0 Hid Ht. unfold edit_task.
    rewrite (login_required_some _ _ _ Hu0), Hid, Ht.
    destruct (String.eqb text ""); [reflexivity|].
    destruct (Task_query_get_text pk_of_text (tasks s0) task_id) as [task|];
      [|reflexivity].
    now destruct (Task.user_id task =? User.id u). }
  rewrite (Hstate s form1 text1 Hu Hid1 Ht1).
  destruct (String.eqb text1 ""); [reflexivity|].
  rewrite (Hstate s form2 text2 Hu Hid2 Ht2).
  rewrite (String_eqb_empty _ Hne).
  unfold Task_query_get_text.
  destruct (pk_of_text task_id) as [k|] eqn:Hpk.
  2:{ rewrite (Hstate s form2 text2 Hu Hid2 Ht2).
      rewrite (String_eqb_empty _ Hne).
      unfold Task_query_get_text. now rewrite Hpk. }
  destruct (Task_query_get (tasks s) k) as [task|] eqn:Hget.
  2:{ rewrite (Hstate s form2 text2 Hu Hid2 Ht2).
      rewrite (String_eqb_empty _ Hne).
      unfold Task_query_get_text. now rewrite Hpk, Hget. }
  destruct (Task.user_id task =? User.id u) eqn:Hown.
  2:{ rewrite (Hstate s form2 text2 Hu Hid2 Ht2).
      rewrite (String_eqb_empty _ Hne).
      unfold Task_query_get_text. now rewrite Hpk, Hget, Hown. }
  rewrite (Hstate _ form2 text2) by assumption.
  rewrite (String_eqb_empty _ Hne).
  unfold Task_query_get_text. rewrite Hpk. cbn [tasks with_tasks].
  pose proof (Task_query_get_in _ _ _ Hget) as [_ Hk]. rewrite Hk.
  rewrite Task_query_get_update by reflexivity. rewrite Hget.
  cbn [option_map Task.user_id Task.set_content Task.id]. rewrite Hown.
  unfold with_tasks. cbn [users tasks session_user_id]. rewrite Hk.
  now rewrite update_row_twice by reflexivity.
Qed.

End Edit.

(** ** Logging in and out *)

Lemma User_first_by_username_key (us : list User.t) (u : User.t) :
  NoDup (map User.username us) -> In u us ->
  User_first_by_username us (User.username u) = Some u.
Proof.
  unfold User_first_by_username.
  induction us as [|x us IH]; simpl; intros Hnd Hin; [contradiction|].
  inversion Hnd as [|? ? Hx Hnd']; subst.
  destruct Hin as [->|Hin].
  - now rewrite String.eqb_refl.
  - destruct (String.eqb (User.username x) (User.username u)) eqn:E.
    + apply String.eqb_eq in E. exfalso. apply Hx. rewrite E.
      now apply in_map.
    + now apply IH.
Qed.

Lemma User_query_get_key (us : list User.t) (u : User.t) :
  NoDup (map User.id us) -> In u us -> User_query_get us (User.id u) = Some u.
Proof.
  unfold User_query_get.
  induction us as [|x us IH]; simpl; intros Hnd Hin; [contradiction|].
  inversion Hnd as [|? ? Hx Hnd']; subst.
  destruct Hin as [->|Hin].
  - now rewrite Z.eqb_refl.
  - destruct (User.id x =? User.id u) eqn:E.
    + apply Z.eqb_eq in E. exfalso. apply Hx. rewrite E. now apply in_map.
    + now apply IH.
Qed.

Section Login.

Variable check_password_hash : string -> string -> bool.

Local Abbreviation login_post := (login check_password_hash POST).

(** X3.  A POST to [/login] with a username and a password: when no
    user has the username, it flashes "Username does not exist. Please
    register.", redirects to [/register] and changes nothing; for the
    user who has it (usernames being unique), when
    [check_password_hash] refuses the password against the stored one,
    it flashes "Login failed. Incorrect password.", shows the login page
    again and changes nothing, so that whoever was logged in still is;
    when it accepts, it flashes "Login successful!", redirects to
    [/index] and puts the id of that user in the session, the tables
    untouched, after which (user keys being unique) the acting user is
    that user. *)
Theorem login_outcomes (s : State) (form : Form)
        (username password : string) :
  form_get form "username" = Some username ->
  form_get form "password" = Some password ->
  ((forall u, In u (users s) -> User.username u <> username) ->
     login_post form s
     = (flash_and "Username does not exist. Please register." "danger"
                  (redirect "/register"), s))
  /\ (forall user,
        NoDup (map User.username (users s)) ->
        In user (users s) -> User.username user = username ->
        (check_password_hash (User.password user) password = false ->
           login_post form s
           = (flash_and "Login failed. Incorrect password." "danger"
                        (render_template "login.html" no_context), s))
        /\ (check_password_hash (User.password user) password = true ->
              login_post form s
              = (flash_and "Login successful!" "success" (redirect "/index"),
                 mk_state (users s) (tasks s) (Some (User.id user)))
              /\ (NoDup (map User.id (users s)) ->
                  current_user (snd (login_post form s)) = Some user))).
Proof.
  intros Hn Hp. unfold login. rewrite Hn, Hp. split.
  - intros Hfree. now rewrite (User_first_by_username_none _ _ Hfree).
  - intros user Hnd Hin Hname. subst username.
    rewrite (User_first_by_username_key _ _ Hnd Hin). split.
    + now intros ->.
    + intros ->. split; [reflexivity|].
      intros Hkeys. cbn. unfold current_user. cbn.
      now apply User_query_get_key.
Qed.

End Login.

(** ** Forms with a field missing *)

Section MissingFields.

Variable generate_password_hash : string -> string -> string -> string.
Variable check_password_hash : string -> string -> bool.
Variable pk_of_text : string -> option Z.


End MissingFields.

(** ** More on the summary *)

Lemma count_nonneg (p : Task.t -> bool) (ts : list Task.t) : 0 <= count p ts.
Proof. unfold count. lia. Qed.

Lemma count_done_or_not (ts : list Task.t) :
  count Task.done ts + count (fun t => negb (Task.done t)) ts
  = Z.of_nat (List.length ts).
Proof.
  unfold count. induction ts as [|x ts IH]; simpl; [reflexivity|].
  destruct (Task.done x); simpl List.length; lia.
Qed.

Lemma sum_overdue_bounds (clock : nat -> datetime) (ts : list Task.t) :
  forall k, 0 <= sum_overdue clock k ts
                 <= count (fun t => negb (Task.done t)) ts.
Proof.
  unfold count. induction ts as [|x ts IH]; intros k; simpl; [lia|].
  destruct (Task.due_date x) as [due|].
  - specialize (IH (S k)).
    destruct (Task.done x); cbn [negb];
      rewrite ?andb_false_r, ?andb_true_r; cbn [filter negb].
    + lia.
    + destruct (datetime_ltb due (clock k)); simpl List.length; lia.
  - specialize (IH k). destruct (Task.done x); simpl List.length; lia.
Qed.

(** X16.  Whatever the clock reads during the request, the figures of
    [/analytics] for a logged-in user add up: [total_tasks] is the
    number of the user's rows, [completed_tasks] and [pending_tasks] are
    not negative and sum to it, and [overdue_tasks] lies between 0 and
    [pending_tasks]. *)
Theorem analytics_bounds (s : State) (u : User.t) (clock : nat -> datetime) :
  current_user s = Some u ->
  exists total completed pending overdue,
    analytics clock s
    = (mk_reply []
         (render_template "analytics.html"
            (analytics_context total completed pending overdue)), s)
    /\ total = count (owned_by (User.id u)) (tasks s)
    /\ completed + pending = total
    /\ 0 <= completed /\ 0 <= pending
    /\ 0 <= overdue <= pending.
Proof.
  intros Hu. unfold analytics. rewrite (login_required_some _ _ _ Hu).
  cbv zeta. do 4 eexists. split; [reflexivity|].
  set (own := Task_all_by_user_id (tasks s) (User.id u)).
  pose proof (count_done_or_not own) as Hsum.
  pose proof (sum_overdue_bounds clock own 0%nat) as Hover.
  pose proof (count_nonneg Task.done own).
  pose proof (count_nonneg (fun t => negb (Task.done t)) own).
  rewrite sum_done_count.
  split; [reflexivity|]. lia.
Qed.

Lemma filter_map_same (p : Task.t -> bool) (f : Task.t -> Task.t)
      (ts : list Task.t) :
  (forall x, p (f x) = p x) -> filter p (map f ts) = map f (filter p ts).
Proof.
  intros Hf. induction ts as [|x ts IH]; simpl; [reflexivity|].
  rewrite Hf. destruct (p x); simpl; now rewrite IH.
Qed.

Lemma sum_done_all (ts : list Task.t) :
  (forall t, In t ts -> Task.done t = true) ->
  sum_done ts = Z.of_nat (List.length ts).
Proof.
  induction ts as [|x ts IH]; simpl; intros Hall; [reflexivity|].
  rewrite (Hall x) by now left.
  rewrite IH by (intros t Ht; apply Hall; now right). lia.
Qed.

Lemma sum_overdue_all_done (clock : nat -> datetime) (ts : list Task.t) :
  (forall t, In t ts -> Task.done t = true) ->
  forall k, sum_overdue clock k ts = 0.
Proof.
  induction ts as [|x ts IH]; simpl; intros Hall k; [reflexivity|].
  rewrite (Hall x) by now left.
  destruct (Task.due_date x);
    rewrite ?andb_false_r, IH; try reflexivity;
    intros t Ht; apply Hall; now right.
Qed.

(** X17.  After [/finished], whatever the clock reads, [/analytics]
    shows for the same user every task completed, none pending and none
    overdue, the total being what it was. *)
Theorem analytics_after_resolve (s : State) (u : User.t)
        (clock : nat -> datetime) :
  current_user s = Some u ->
  let total := count (owned_by (User.id u)) (tasks s) in
  let s1 := snd (resolve_tasks s) in
  analytics clock s1
  = (mk_reply []
       (render_template "analytics.html" (analytics_context total total 0 0)),
     s1).
Proof.
  intros Hu total s1.
  assert (Hs1 : s1 = with_tasks s
                       (resolve_loop
                          (Task_all_by_user_id (tasks s) (User.id u))
                          (tasks s))).
  { unfold s1, resolve_tasks. now rewrite (login_required_some _ _ _ Hu). }
  assert (Hu1 : current_user s1 = Some u) by (now rewrite Hs1).
  unfold analytics. rewrite (login_required_some _ _ _ Hu1). cbv zeta.
  set (own1 := Task_all_by_user_id (tasks s1) (User.id u)).
  set (F := fun t =>
              if existsb (fun task => negb (Task.done task)
                                      && (Task.id t =? Task.id task))
                         (Task_all_by_user_id (tasks s) (User.id u))
              then Task.set_done true t else t).
  assert (Hown1 : own1 = map F (Task_all_by_user_id (tasks s) (User.id u))).
  { unfold own1. rewrite Hs1. cbn [tasks with_tasks].
    rewrite resolve_loop_map. fold F. unfold Task_all_by_user_id.
    apply filter_map_same. intros x. unfold F.
    now destruct (existsb _ _). }
  assert (Hlen : Z.of_nat (List.length own1) = total).
  { rewrite Hown1, length_map. reflexivity. }
  assert (Hdone : forall t, In t own1 -> Task.done t = true).
  { rewrite Hown1. intros t Hin. apply in_map_iff in Hin.
    destruct Hin as [x [<- Hx]]. unfold F.
    destruct (existsb _ _) eqn:E; [reflexivity|].
    destruct (Task.done x) eqn:Hd; [reflexivity|]. exfalso.
    assert (Ht : existsb (fun task => negb (Task.done task)
                                      && (Task.id x =? Task.id task))
                         (Task_all_by_user_id (tasks s) (User.id u)) = true).
    { apply existsb_exists. exists x. split; [assumption|].
      now rewrite Hd, Z.eqb_refl. }
    congruence. }
  rewrite (sum_done_all _ Hdone), (sum_overdue_all_done _ _ Hdone), Hlen.
  now rewrite Z.sub_diag.
Qed.

Lemma lex_ltb_le_trans (a b c : list Z) :
  List.length a = List.length b -> List.length b = List.length c ->
  lex_ltb a b = true -> lex_ltb c b = false -> lex_ltb a c = true.
Proof.
  revert b c. induction a as [|x a IH]; intros [|y b] [|z c];
    simpl; try discriminate.
  intros Hab Hbc Hlt Hle.
  injection Hab as Hab. injection Hbc as Hbc.
  apply orb_false_iff in Hle. destruct Hle as [Hzy Hle].
  apply Z.ltb_ge in Hzy.
  apply orb_true_iff in Hlt. destruct Hlt as [Hxy|Hxy].
  - apply Z.ltb_lt in Hxy. apply orb_true_iff. left. apply Z.ltb_lt. lia.
  - apply andb_true_iff in Hxy. destruct Hxy as [Hxy Hlt].
    apply Z.eqb_eq in Hxy. subst y.
    destruct (x =? z) eqn:E.
    + rewrite Z.eqb_sym, E in Hle. cbn in Hle.
      apply orb_true_iff. right. cbn. now apply (IH b c).
    + apply Z.eqb_neq in E. apply orb_true_iff. left. apply Z.ltb_lt. lia.
Qed.

Lemma overdue_at_later (now later : datetime) (t : Task.t) :
  datetime_ltb later now = false ->
  overdue_at now t = true -> overdue_at later t = true.
Proof.
  intros Hle. unfold overdue_at.
  destruct (Task.due_date t) as [due|]; [|discriminate].
  intros H. apply andb_true_iff in H. destruct H as [Hlt Hnd].
  rewrite Hnd, andb_true_r. unfold datetime_ltb in *.
  now apply (lex_ltb_le_trans _ (datetime_fields now)).
Qed.

Lemma count_le (p q : Task.t -> bool) (ts : list Task.t) :
  (forall t, p t = true -> q t = true) -> count p ts <= count q ts.
Proof.
  intros Hpq. unfold count. induction ts as [|x ts IH]; simpl; [lia|].
  destruct (p x) eqn:E.
  - rewrite (Hpq x E). simpl List.length. lia.
  - destruct (q x); simpl List.length; lia.
Qed.

(** X21.  Time only adds to the overdue: for one state and user, if the
    clock reads one instant during a first [/analytics] and one instant
    not earlier during a second, the second shows the same total,
    completed and pending figures and an [overdue_tasks] at least as
    large. *)
Theorem analytics_overdue_monotone (s : State) (u : User.t)
        (now later : datetime) :
  current_user s = Some u ->
  datetime_ltb later now = false ->
  exists total completed pending overdue1 overdue2,
    analytics (fun _ => now) s
    = (mk_reply []
         (render_template "analytics.html"
            (analytics_context total completed pending overdue1)), s)
    /\ analytics (fun _ => later) s
       = (mk_reply []
            (render_template "analytics.html"
               (analytics_context total completed pending overdue2)), s)
    /\ overdue1 <= overdue2.
Proof.
  intros Hu Hle. unfold analytics. rewrite !(login_required_some _ _ _ Hu).
  cbv zeta. do 5 eexists. split; [reflexivity|]. split; [reflexivity|].
  rewrite (sum_overdue_one_instant _ now) by reflexivity.
  rewrite (sum_overdue_one_instant _ later) by reflexivity.
  apply count_le. intros t. now apply overdue_at_later.
Qed.

(** ** Adding, then listing; deleting, then deleting again *)

Lemma add_task_accepted (s : State) (u : User.t) (form : Form)
      (content due_date : string) (d : datetime) :
  current_user s = Some u ->
  form_get form "content" = Some content ->
  form_get form "due_date" = Some due_date ->
  content <> "" -> strptime due_date = Some d ->
  add_task form s
  = (flash_and "Task added successfully!" "success" (redirect "/index"),
     with_tasks s (add_row content (User.id u) d (tasks s))).
Proof.
  intros Hu Hc Hd Hne Hparse. unfold add_task.
  rewrite (login_required_some _ _ _ Hu), Hc, Hd.
  now rewrite (String_eqb_empty _ Hne), Hparse.
Qed.

(** X18.  What [/task] adds shows on [/index]: after a [/task] of a
    logged-in user with a content that is not empty and a date that
    [strptime] reads, [/index] lists for that user the tasks it listed
    before, in the same order, followed by the new one, which has the
    content and date given, is not done, and has a key no task had. *)
Theorem tasks_list_after_add (s : State) (u : User.t) (form : Form)
        (content due_date : string) (d : datetime) :
  current_user s = Some u ->
  form_get form "content" = Some content ->
  form_get form "due_date" = Some due_date ->
  content <> "" -> strptime due_date = Some d ->
  let s1 := snd (add_task form s) in
  exists before k,
    tasks_list s
    = (mk_reply [] (render_template "index.html" (index_context before)), s)
    /\ ~ In k (map Task.id (tasks s))
    /\ tasks_list s1
       = (mk_reply []
            (render_template "index.html"
               (index_context
                  (before
                   ++ [Task.mk k content false (Some d) (User.id u)]))),
          s1).
Proof.
  intros Hu Hc Hd Hne Hparse. cbv zeta.
  rewrite (add_task_accepted s u form content due_date d) by assumption.
  cbn [snd]. unfold tasks_list.
  rewrite !(login_required_some _ _ u) by exact Hu.
  do 2 eexists. split; [reflexivity|].
  split; [apply next_id_fresh|].
  cbn [tasks with_tasks]. unfold add_row, Task_all_by_user_id.
  rewrite filter_app. cbn [filter Task.user_id]. now rewrite Z.eqb_refl.
Qed.

Lemma delete_row_own (k u : Z) (ts : list Task.t) :
  Task_all_by_user_id (delete_row k ts) u
  = delete_row k (Task_all_by_user_id ts u).
Proof.
  unfold Task_all_by_user_id, delete_row. rewrite !filter_filter.
  apply filter_ext. intros t. apply andb_comm.
Qed.

(** X19.  A task is deleted once: in a state whose task keys identify
    rows, after the owner's [/delete] of a task, [/index] lists for the
    owner the tasks it listed before without that one, and a second
    [/delete] of the same key flashes "Task not found or unauthorized
    action." and changes nothing. *)
Theorem delete_task_twice (s : State) (u : User.t) (t : Task.t) :
  NoDup (map Task.id (tasks s)) ->
  current_user s = Some u ->
  In t (tasks s) ->
  Task.user_id t = User.id u ->
  let s1 := snd (delete_task (Task.id t) s) in
  exists before,
    tasks_list s
    = (mk_reply [] (render_template "index.html" (index_context before)), s)
    /\ In t before
    /\ tasks_list s1
       = (mk_reply []
            (render_template "index.html"
               (index_context
                  (filter (fun x => negb (Task.id x =? Task.id t)) before))),
          s1)
    /\ ~ In t (filter (fun x => negb (Task.id x =? Task.id t)) before)
    /\ delete_task (Task.id t) s1
       = (flash_and "Task not found or unauthorized action." "danger"
                    (redirect "/index"), s1).
Proof.
  intros Hnd Hu Hin Hown. cbv zeta.
  assert (Hs1 : snd (delete_task (Task.id t) s)
                = with_tasks s (delete_row (Task.id t) (tasks s))).
  { unfold delete_task. rewrite (login_required_some _ _ _ Hu).
    rewrite (Task_query_get_key _ _ Hnd Hin).
    apply Z.eqb_eq in Hown. now rewrite Hown. }
  rewrite Hs1. unfold tasks_list, delete_task.
  rewrite !(login_required_some _ _ u) by exact Hu.
  eexists. split; [reflexivity|]. split; [|split; [|split]].
  - unfold Task_all_by_user_id. apply filter_In. split; [assumption|].
    now apply Z.eqb_eq.
  - cbn [tasks with_tasks]. now rewrite delete_row_own.
  - intros H. apply filter_In in H. destruct H as [_ H].
    now rewrite Z.eqb_refl in H.
  - cbn [tasks with_tasks]. now rewrite delete_row_get.
Qed.

(** X20.  For a logged-in user and a content that is not empty, [/task]
    with a date written as four digits, a dash, two digits, a dash and
    two digits adds the task exactly when the calendar has that date:
    then the row holds that date at midnight; otherwise the request
    flashes "Invalid date format. Please use YYYY-MM-DD." and adds
    nothing.  So month 13, day 0, 31 April, 29 February of a year that
    is not a leap year and year 0000 are all refused. *)
Theorem add_task_isoformat (s : State) (u : User.t) (form : Form)
        (content : string) (y m d : Z) :
  current_user s = Some u ->
  form_get form "content" = Some content ->
  form_get form "due_date" = Some (isoformat y m d) ->
  content <> "" ->
  0 <= y <= 9999 -> 0 <= m <= 99 -> 0 <= d <= 99 ->
  add_task form s
  = if valid_date y m d
    then (flash_and "Task added successfully!" "success" (redirect "/index"),
          with_tasks s
            (add_row content (User.id u) (mk_datetime y m d 0 0 0 0)
                     (tasks s)))
    else (flash_and "Invalid date format. Please use YYYY-MM-DD." "danger"
                    (redirect "/index"), s).
Proof.
  intros Hu Hc Hd Hne Hy Hm Hday. unfold add_task.
  rewrite (login_required_some _ _ _ Hu), Hc, Hd.
  rewrite (String_eqb_empty _ Hne).
  rewrite (strptime_isoformat y m d Hy Hm Hday).
  now destruct (valid_date y m d).
Qed.

(** ** Toggling, then the summary *)

Lemma update_row_absent (k : Z) (f : Task.t -> Task.t) (ts : list Task.t) :
  ~ In k (map Task.id ts) -> update_row k f ts = ts.
Proof.
  intros Hk. unfold update_row. rewrite <- (map_id ts) at 2.
  apply map_ext_in. intros x Hx.
  destruct (Task.id x =? k) eqn:E; [|reflexivity].
  apply Z.eqb_eq in E. exfalso. apply Hk. rewrite <- E. now apply in_map.
Qed.

Lemma update_row_length (k : Z) (f : Task.t -> Task.t) (ts : list Task.t) :
  List.length (update_row k f ts) = List.length ts.
Proof. unfold update_row. apply length_map. Qed.

Lemma sum_done_update (ts : list Task.t) (t : Task.t) (v : bool) :
  NoDup (map Task.id ts) -> In t ts ->
  sum_done (update_row (Task.id t) (Task.set_done v) ts)
  = sum_done ts - (if Task.done t then 1 else 0) + (if v then 1 else 0).
Proof.
  induction ts as [|x ts IH]; simpl; intros Hnd Hin; [contradiction|].
  inversion Hnd as [|? ? Hx Hnd']; subst.
  destruct Hin as [->|Hin].
  - rewrite Z.eqb_refl. cbn [Task.done Task.set_done].
    fold (update_row (Task.id t) (Task.set_done v) ts).
    rewrite (update_row_absent _ _ _ Hx). lia.
  - destruct (Task.id x =? Task.id t) eqn:E.
    + apply Z.eqb_eq in E. exfalso. apply Hx. rewrite E. now apply in_map.
    + fold (update_row (Task.id t) (Task.set_done v) ts).
      rewrite (IH Hnd' Hin). lia.
Qed.

Section ToggleSummary.

Variable pk_of_text : string -> option Z.

(** X22.  A toggle moves one task between completed and pending: in a
    state whose task keys identify rows, after [/toggle] of one of the
    user's own tasks, [/analytics] shows the same total, and
    [completed_tasks] one more and [pending_tasks] one less if the task
    was not done, one less and one more if it was. *)
Theorem analytics_after_toggle (s : State) (u : User.t) (form : Form)
        (task_id : string) (t : Task.t) (clock1 clock2 : nat -> datetime) :
  NoDup (map Task.id (tasks s)) ->
  current_user s = Some u ->
  form_get form "task_id" = Some task_id ->
  pk_of_text task_id = Some (Task.id t) ->
  In t (tasks s) ->
  Task.user_id t = User.id u ->
  let s1 := snd (toggle_status pk_of_text form s) in
  let step := if Task.done t then -1 else 1 in
  exists total completed pending overdue1 overdue2,
    analytics clock1 s
    = (mk_reply []
         (render_template "analytics.html"
            (analytics_context total completed pending overdue1)), s)
    /\ analytics clock2 s1
       = (mk_reply []
            (render_template "analytics.html"
               (analytics_context total (completed + step) (pending - step)
                                  overdue2)), s1).
Proof.
  intros Hnd Hu Hf Hpk Hin Hown. cbv zeta.
  assert (Hs1 : snd (toggle_status pk_of_text form s)
                = with_tasks s
                    (update_row (Task.id t)
                       (Task.set_done (negb (Task.done t))) (tasks s))).
  { unfold toggle_status, Task_query_get_text.
    rewrite (login_required_some _ _ _ Hu), Hf, Hpk.
    rewrite (Task_query_get_key _ _ Hnd Hin).
    apply Z.eqb_eq in Hown. now rewrite Hown. }
  rewrite Hs1. unfold analytics.
  rewrite !(login_required_some _ _ u) by exact Hu.
  cbv zeta. cbn [tasks with_tasks].
  set (own := Task_all_by_user_id (tasks s) (User.id u)).
  assert (Hown1 : Task_all_by_user_id
                    (update_row (Task.id t)
                       (Task.set_done (negb (Task.done t))) (tasks s))
                    (User.id u)
                  = update_row (Task.id t)
                      (Task.set_done (negb (Task.done t))) own).
  { unfold own, Task_all_by_user_id, update_row.
    apply filter_map_same. intros x.
    now destruct (Task.id x =? Task.id t). }
  rewrite Hown1.
  assert (Hnd_own : NoDup (map Task.id own)).
  { unfold own, Task_all_by_user_id. now apply NoDup_map_filter. }
  assert (Hin_own : In t own).
  { unfold own, Task_all_by_user_id. apply filter_In.
    split; [assumption | now apply Z.eqb_eq]. }
  rewrite (sum_done_update own t _ Hnd_own Hin_own).
  rewrite !update_row_length.
  set (step := if Task.done t then -1 else 1).
  assert (E : sum_done own - (if Task.done t then 1 else 0)
              + (if negb (Task.done t) then 1 else 0)
              = sum_done own + step).
  { unfold step. destruct (Task.done t); cbn [negb]; lia. }
  rewrite E.
  replace (Z.of_nat (List.length own) - (sum_done own + step))
    with (Z.of_nat (List.length own) - sum_done own - step) by lia.
  do 5 eexists. split; reflexivity.
Qed.

End ToggleSummary.

(** * More of the model on sample data *)

Lemma journey_reachable :
  reachable sample_hash sample_check sample_pk_of_text
            (run sample_dispatch journey initial).
Proof. apply reachable_run. constructor. Qed.

Lemma edit_task_ownership_witness :
  Task_query_get
    (tasks (snd (edit_task sample_pk_of_text
                   [("task_id", "1"); ("edit_text", "Buy bread")]
                   (sample (Some 1))))) 1
  = Some (Task.mk 1 "Buy bread" false
                  (Some (mk_datetime 2099 1 1 0 0 0 0)) 1)
  /\ edit_task sample_pk_of_text
       [("task_id", "3"); ("edit_text", "Buy bread")] (sample (Some 1))
     = (flash_and "Task not found or unauthorized action." "danger"
                  (redirect "/index"), sample (Some 1))
  /\ edit_task sample_pk_of_text
       [("task_id", "3"); ("edit_text", "")] (sample (Some 1))
     = (flash_and "Please enter text for your task" "danger"
                  (redirect "/index"), sample (Some 1)).
Proof.
  assert (Hne : "Buy bread" <> "") by discriminate.
  split; [|split].
  - pose proof (proj1 (proj2 (edit_task_ownership sample_pk_of_text
                       (sample (Some 1)) alice
                       [("task_id", "1"); ("edit_text", "Buy bread")]
                       "1" "Buy bread" eq_refl eq_refl eq_refl) Hne)
                  milk (proj1 (sample_primary_keys _))
                  (or_introl eq_refl) eq_refl eq_refl) as H.
    cbv zeta in H. exact (proj1 (proj2 H)).
  - refine (proj2 (proj2 (edit_task_ownership sample_pk_of_text
                       (sample (Some 1)) alice
                       [("task_id", "3"); ("edit_text", "Buy bread")]
                       "3" "Buy bread" eq_refl eq_refl eq_refl) Hne) _).
    intros k t Hk Hin Hid. injection Hk as <-.
    destruct Hin as [<-|[<-|[<-|[]]]]; cbn in *; discriminate.
  - exact (proj1 (edit_task_ownership sample_pk_of_text
                    (sample (Some 1)) alice
                    [("task_id", "3"); ("edit_text", "")]
                    "3" "" eq_refl eq_refl eq_refl) eq_refl).
Defined.

Lemma edit_task_last_write_witness :
  snd (edit_task sample_pk_of_text
         [("task_id", "1"); ("edit_text", "Buy bread")]
         (snd (edit_task sample_pk_of_text
                 [("task_id", "1"); ("edit_text", "Buy eggs")]
                 (sample (Some 1)))))
  = snd (edit_task sample_pk_of_text
           [("task_id", "1"); ("edit_text", "Buy bread")] (sample (Some 1))).
Proof.
  refine (edit_task_last_write sample_pk_of_text (sample (Some 1)) alice
            [("task_id", "1"); ("edit_text", "Buy eggs")]
            [("task_id", "1"); ("edit_text", "Buy bread")]
            "1" "Buy eggs" "Buy bread"
            eq_refl eq_refl eq_refl eq_refl eq_refl _).
  discriminate.
Defined.

Lemma login_outcomes_witness :
  login sample_check POST [("username", "zed"); ("password", "pw")] registered
  = (flash_and "Username does not exist. Please register." "danger"
               (redirect "/register"), registered)
  /\ login sample_check POST [("username", "alice"); ("password", "bad")]
           registered
     = (flash_and "Login failed. Incorrect password." "danger"
                  (render_template "login.html" no_context), registered)
  /\ current_user
       (snd (login sample_check POST
               [("username", "alice"); ("password", "pw")] registered))
     = Some (User.mk 1 "alice" "a@x.com" "salt$pw").
Proof.
  assert (Hnames : NoDup (map User.username (users registered))).
  { cbn. constructor; [intros [] | constructor]. }
  assert (Hkeys : NoDup (map User.id (users registered))).
  { cbn. constructor; [intros [] | constructor]. }
  split; [|split].
  - refine (proj1 (login_outcomes sample_check registered
                     [("username", "zed"); ("password", "pw")] "zed" "pw"
                     eq_refl eq_refl) _).
    intros u [<-|[]]. discriminate.
  - exact (proj1 (proj2 (login_outcomes sample_check registered
                     [("username", "alice"); ("password", "bad")]
                     "alice" "bad" eq_refl eq_refl)
                   (User.mk 1 "alice" "a@x.com" "salt$pw")
                   Hnames (or_introl eq_refl) eq_refl) eq_refl).
  - exact (proj2 (proj2 (proj2 (login_outcomes sample_check registered
                     [("username", "alice"); ("password", "pw")]
                     "alice" "pw" eq_refl eq_refl)
                   (User.mk 1 "alice" "a@x.com" "salt$pw")
                   Hnames (or_introl eq_refl) eq_refl) eq_refl) Hkeys).
Defined.

Lemma login_after_register_witness :
  exists new : User.t,
    users (snd (register sample_hash POST
                  [("username", "alice"); ("email", "a@x.com");
                   ("password", "pw")] "salt" initial))
    = [new]
    /\ User.password new = "salt$pw"
    /\ login sample_check POST [("username", "alice"); ("password", "pw")]
             registered
       = (flash_and "Login successful!" "success" (redirect "/index"),
          with_session registered (Some 1)).
Proof.
  destruct (login_after_register sample_hash sample_check initial
              [("username", "alice"); ("email", "a@x.com");
               ("password", "pw")]
              "salt" "alice" "a@x.com" "pw" eq_refl eq_refl eq_refl
              (fun u (H : In u []) => match H with end)
              (fun u (H : In u []) => match H with end))
    as [new [Husers [_ [Hpw _]]]].
  exists new. split; [exact Husers|]. split; [exact Hpw | reflexivity].
Defined.

Lemma logout_ends_session_witness :
  current_user (snd (logout (sample (Some 1)))) = None
  /\ tasks (snd (logout (sample (Some 1)))) = [milk; taxes; letter]
  /\ sample_dispatch request_finished (snd (logout (sample (Some 1))))
     = (mk_reply [] unauthorized, snd (logout (sample (Some 1)))).
Proof.
  pose proof (logout_ends_session sample_hash sample_check sample_pk_of_text
                (sample (Some 1)) alice eq_refl) as H.
  cbv zeta in H. destruct H as [_ [_ [Htasks [Hnone Hprot]]]].
  split; [exact Hnone|]. split; [exact Htasks|].
  exact (Hprot request_finished eq_refl).
Defined.

Lemma no_session_no_write_witness :
  sample_dispatch (request_delete 1) (sample None)
  = (mk_reply [] unauthorized, sample None)
  /\ sample_dispatch (request_delete 1) (sample (Some 7))
     = (mk_reply [] unauthorized, sample (Some 7))
  /\ sample_dispatch request_home (sample None)
     = (mk_reply [] (redirect "/register"), sample None).
Proof.
  split; [|split].
  - exact (proj1 (no_session_no_write sample_hash sample_check
                    sample_pk_of_text (request_delete 1) (sample None)
                    eq_refl) eq_refl).
  - exact (proj1 (no_session_no_write sample_hash sample_check
                    sample_pk_of_text (request_delete 1) (sample (Some 7))
                    eq_refl) eq_refl).
  - exact (proj2 (no_session_no_write sample_hash sample_check
                    sample_pk_of_text request_home (sample None) eq_refl)).
Defined.


Lemma other_users_tasks_untouched_witness :
  In milk (tasks (snd (sample_dispatch request_finished (sample (Some 2)))))
  <-> In milk (tasks (sample (Some 2))).
Proof.
  refine (other_users_tasks_untouched sample_hash sample_check
            sample_pk_of_text request_finished (sample (Some 2)) milk
            (proj1 (sample_primary_keys _)) _).
  intros u Hu. injection Hu as <-. discriminate.
Defined.

Lemma reachable_primary_keys_witness :
  NoDup (map Task.id (tasks (run sample_dispatch journey initial)))
  /\ NoDup (map User.id (users (run sample_dispatch journey initial))).
Proof.
  exact (reachable_primary_keys sample_hash sample_check sample_pk_of_text
           _ journey_reachable).
Defined.

Lemma reachable_unique_names_witness :
  NoDup (map User.username (users (run sample_dispatch journey initial)))
  /\ NoDup (map User.email (users (run sample_dispatch journey initial))).
Proof.
  exact (reachable_unique_names sample_hash sample_check sample_pk_of_text
           _ journey_reachable).
Defined.

Lemma reachable_session_valid_witness :
  session_user_id (run sample_dispatch journey initial) = Some 1
  /\ exists u, current_user (run sample_dispatch journey initial) = Some u
               /\ In u (users (run sample_dispatch journey initial))
               /\ User.id u = 1.
Proof.
  split; [reflexivity|].
  exact (reachable_session_valid sample_hash sample_check sample_pk_of_text
           _ 1 journey_reachable eq_refl).
Defined.

Lemma reachable_owners_exist_witness :
  exists u, In u (users (run sample_dispatch journey initial))
            /\ User.id u = 1.
Proof.
  exact (reachable_owners_exist sample_hash sample_check sample_pk_of_text
           _ (Task.mk 1 "Buy milk" false
                      (Some (mk_datetime 2099 1 1 0 0 0 0)) 1)
           journey_reachable (or_introl eq_refl)).
Defined.

Lemma reachable_content_nonempty_witness :
  In (Task.mk 1 "Buy milk" false (Some (mk_datetime 2099 1 1 0 0 0 0)) 1)
     (tasks (run sample_dispatch journey initial))
  /\ "Buy milk" <> "".
Proof.
  split; [now left|].
  exact (reachable_content_nonempty sample_hash sample_check
           sample_pk_of_text _
           (Task.mk 1 "Buy milk" false
                    (Some (mk_datetime 2099 1 1 0 0 0 0)) 1)
           journey_reachable (or_introl eq_refl)).
Defined.

Lemma reachable_due_dates_calendar_witness :
  exists d, Some (mk_datetime 2099 1 1 0 0 0 0) = Some d
            /\ valid_date (year d) (month d) (day d) = true
            /\ hour d = 0 /\ minute d = 0 /\ second d = 0
            /\ microsecond d = 0.
Proof.
  exact (reachable_due_dates_calendar sample_hash sample_check
           sample_pk_of_text _
           (Task.mk 1 "Buy milk" false
                    (Some (mk_datetime 2099 1 1 0 0 0 0)) 1)
           journey_reachable (or_introl eq_refl)).
Defined.

Lemma analytics_bounds_witness :
  exists total completed pending overdue,
    analytics clock_june_1st (sample (Some 1))
    = (mk_reply []
         (render_template "analytics.html"
            (analytics_context total completed pending overdue)),
       sample (Some 1))
    /\ total = 2
    /\ completed + pending = total
    /\ 0 <= completed /\ 0 <= pending
    /\ 0 <= overdue <= pending.
Proof.
  exact (analytics_bounds (sample (Some 1)) alice clock_june_1st eq_refl).
Defined.

Lemma analytics_after_resolve_witness :
  analytics clock_june_1st (snd (resolve_tasks (sample (Some 1))))
  = (mk_reply []
       (render_template "analytics.html" (analytics_context 2 2 0 0)),
     snd (resolve_tasks (sample (Some 1)))).
Proof.
  exact (analytics_after_resolve (sample (Some 1)) alice clock_june_1st
           eq_refl).
Defined.

Lemma tasks_list_after_add_witness :
  exists before k,
    tasks_list (sample (Some 1))
    = (mk_reply [] (render_template "index.html" (index_context before)),
       sample (Some 1))
    /\ ~ In k [1; 2; 3]
    /\ tasks_list
         (snd (add_task [("content", "Call mum"); ("due_date", "2024-07-01")]
                        (sample (Some 1))))
       = (mk_reply []
            (render_template "index.html"
               (index_context
                  (before
                   ++ [Task.mk k "Call mum" false
                         (Some (mk_datetime 2024 7 1 0 0 0 0)) 1]))),
          snd (add_task [("content", "Call mum"); ("due_date", "2024-07-01")]
                        (sample (Some 1)))).
Proof.
  refine (tasks_list_after_add (sample (Some 1)) alice
            [("content", "Call mum"); ("due_date", "2024-07-01")]
            "Call mum" "2024-07-01" (mk_datetime 2024 7 1 0 0 0 0)
            eq_refl eq_refl eq_refl _ eq_refl).
  discriminate.
Defined.

Lemma delete_task_twice_witness :
  exists before,
    tasks_list (sample (Some 1))
    = (mk_reply [] (render_template "index.html" (index_context before)),
       sample (Some 1))
    /\ In milk before
    /\ tasks_list (snd (delete_task 1 (sample (Some 1))))
       = (mk_reply []
            (render_template "index.html"
               (index_context
                  (filter (fun x => negb (Task.id x =? 1)) before))),
          snd (delete_task 1 (sample (Some 1))))
    /\ ~ In milk (filter (fun x => negb (Task.id x =? 1)) before)
    /\ delete_task 1 (snd (delete_task 1 (sample (Some 1))))
       = (flash_and "Task not found or unauthorized action." "danger"
                    (redirect "/index"),
          snd (delete_task 1 (sample (Some 1)))).
Proof.
  exact (delete_task_twice (sample (Some 1)) alice milk
           (proj1 (sample_primary_keys _)) eq_refl (or_introl eq_refl)
           eq_refl).
Defined.

Lemma add_task_isoformat_witness :
  add_task [("content", "Call mum"); ("due_date", "2023-02-29")]
           (sample (Some 1))
  = (flash_and "Invalid date format. Please use YYYY-MM-DD." "danger"
               (redirect "/index"), sample (Some 1))
  /\ tasks (snd (add_task [("content", "Call mum");
                           ("due_date", "2024-02-29")] (sample (Some 1))))
     = [milk; taxes; letter;
        Task.mk 4 "Call mum" false (Some (mk_datetime 2024 2 29 0 0 0 0)) 1].
Proof.
  assert (Hne : "Call mum" <> "") by discriminate.
  split.
  - exact (add_task_isoformat (sample (Some 1)) alice
             [("content", "Call mum"); ("due_date", "2023-02-29")]
             "Call mum" 2023 2 29 eq_refl eq_refl eq_refl Hne
             ltac:(lia) ltac:(lia) ltac:(lia)).
  - exact (f_equal (fun r => tasks (snd r))
             (add_task_isoformat (sample (Some 1)) alice
                [("content", "Call mum"); ("due_date", "2024-02-29")]
                "Call mum" 2024 2 29 eq_refl eq_refl eq_refl Hne
                ltac:(lia) ltac:(lia) ltac:(lia))).
Defined.

Lemma analytics_overdue_monotone_witness :
  exists total completed pending overdue1 overdue2,
    analytics (fun _ => mk_datetime 2024 4 30 0 0 0 0) (sample (Some 2))
    = (mk_reply []
         (render_template "analytics.html"
            (analytics_context total completed pending overdue1)),
       sample (Some 2))
    /\ analytics (fun _ => june_1st) (sample (Some 2))
       = (mk_reply []
            (render_template "analytics.html"
               (analytics_context total completed pending overdue2)),
          sample (Some 2))
    /\ overdue1 <= overdue2.
Proof.
  exact (analytics_overdue_monotone (sample (Some 2)) bob
           (mk_datetime 2024 4 30 0 0 0 0) june_1st eq_refl eq_refl).
Defined.

Lemma analytics_after_toggle_witness :
  exists total completed pending overdue1 overdue2,
    analytics clock_june_1st (sample (Some 1))
    = (mk_reply []
         (render_template "analytics.html"
            (analytics_context total completed pending overdue1)),
       sample (Some 1))
    /\ analytics clock_june_1st
         (snd (toggle_status sample_pk_of_text [("task_id", "1")]
                             (sample (Some 1))))
       = (mk_reply []
            (render_template "analytics.html"
               (analytics_context total (completed + 1) (pending - 1)
                                  overdue2)),
          snd (toggle_status sample_pk_of_text [("task_id", "1")]
                             (sample (Some 1)))).
Proof.
  exact (analytics_after_toggle sample_pk_of_text (sample (Some 1)) alice
           [("task_id", "1")] "1" milk clock_june_1st clock_june_1st
           (proj1 (sample_primary_keys _)) eq_refl eq_refl eq_refl
           (or_introl eq_refl) eq_refl).
Defined.

Lemma request_frame_witness :
  users (snd (sample_dispatch request_finished (sample (Some 1))))
  = [alice; bob]
  /\ session_user_id (snd (sample_dispatch request_finished (sample (Some 1))))
     = Some 1
  /\ tasks (snd (sample_dispatch
                   (request_register POST
                      [("username", "carol"); ("email", "c@x.com");
                       ("password", "pw")] "salt")
                   (sample (Some 1))))
     = [milk; taxes; letter].
Proof.
  pose proof (request_frame sample_hash sample_check sample_pk_of_text
                request_finished (sample (Some 1))) as H1.
  pose proof (request_frame sample_hash sample_check sample_pk_of_text
                (request_register POST
                   [("username", "carol"); ("email", "c@x.com");
                    ("password", "pw")] "salt")
                (sample (Some 1))) as H2.
  cbv zeta in H1, H2.
  destruct H1 as [Husers [_ [_ Hsession]]].
  destruct H2 as [_ [_ [Htasks _]]].
  split; [exact (Husers eq_refl)|].
  split; [exact (Hsession eq_refl) | exact (Htasks eq_refl)].
Defined.
